(** * Agent radar: the feed pipeline of [build_agent_radar.py]

    The repository holds two evolutions of one script:
    - [scripts/build_agent_radar.py]            (module [Scripts]), the
      incremental variant with [classify], [safe_id] and [load_existing];
    - [.github/workflows/build_agent_radar.py]  (module [Workflow]), the
      stateless variant that classifies and builds ids inline.

    Python strings are modelled as [string] over ASCII characters, with
    [str.lower] mapping [A-Z] to [a-z].  Instants are integers: the number
    of microseconds since 1970-01-01T00:00:00 UTC. *)

From Stdlib Require Import ZArith Ascii String List DecimalString.
From Stdlib Require Import Sorting.Sorted Sorting.Permutation.
From stdpp Require Import gmap strings list fin_maps.

Set Warnings "-clear-no-such-hyp".

Open Scope string_scope.
Open Scope list_scope.
Open Scope Z_scope.

(** ** Strings *)

Definition is_upper (c : ascii) : bool :=
  let n := nat_of_ascii c in (65 <=? n)%nat && (n <=? 90)%nat.

Definition is_lower (c : ascii) : bool :=
  let n := nat_of_ascii c in (97 <=? n)%nat && (n <=? 122)%nat.

Definition is_digit (c : ascii) : bool :=
  let n := nat_of_ascii c in (48 <=? n)%nat && (n <=? 57)%nat.

(** The characters kept by the pattern [[^a-z0-9]+]. *)
Definition is_alnum_lc (c : ascii) : bool := is_lower c || is_digit c.

Definition lower_char (c : ascii) : ascii :=
  if is_upper c then ascii_of_nat (nat_of_ascii c + 32) else c.

(** [s.lower()] *)
Fixpoint lower (s : string) : string :=
  match s with
  | EmptyString => EmptyString
  | String c r => String (lower_char c) (lower r)
  end.

(** [k in t] on strings: [k] occurs in [t] as a substring. *)
Fixpoint str_in (k t : string) : bool :=
  String.prefix k t ||
  match t with
  | EmptyString => false
  | String _ r => str_in k r
  end.

(** [s[:n]] for [n >= 0]. *)
Fixpoint str_take (n : nat) (s : string) : string :=
  match n, s with
  | S n', String c r => String c (str_take n' r)
  | _, _ => EmptyString
  end.

Definition dash : ascii := "-"%char.

(** [re.sub(r"[^a-z0-9]+", "-", s)]: every maximal run of characters
    outside [a-z0-9] is replaced by one dash.  [in_run] tells that the
    previous character already belonged to the run being replaced. *)
Fixpoint re_sub_dash (in_run : bool) (s : string) : string :=
  match s with
  | EmptyString => EmptyString
  | String c r =>
      if is_alnum_lc c then String c (re_sub_dash false r)
      else if in_run then re_sub_dash true r
      else String dash (re_sub_dash true r)
  end.

Fixpoint lstrip_dash (s : string) : string :=
  match s with
  | String c r => if Ascii.eqb c dash then lstrip_dash r else s
  | EmptyString => EmptyString
  end.

Fixpoint rstrip_dash (s : string) : string :=
  match s with
  | EmptyString => EmptyString
  | String c r =>
      match rstrip_dash r with
      | EmptyString => if Ascii.eqb c dash then EmptyString else String c EmptyString
      | r' => String c r'
      end
  end.

(** [s.strip("-")] *)
Definition strip_dash (s : string) : string := rstrip_dash (lstrip_dash s).

(** [re.sub(r"[^a-z0-9]+", "-", s.lower()).strip("-")], the expression both
    variants apply to the title (and [safe_id] also to the vendor). *)
Definition slugify (s : string) : string :=
  strip_dash (re_sub_dash false (lower s)).

(** ** Time *)

(** One day in microseconds, the resolution of [timedelta]. *)
Definition DAY_US : Z := 86400000000.

(** [(a - b).days]: a [timedelta] is normalised with its day count equal to
    the floor of the difference divided by one day. *)
Definition delta_days (a b : Z) : Z := (a - b) / DAY_US.

(** [in_window(dt, days)] (identical in both files), with the reading of
    [datetime.now(timezone.utc)] passed as [now]. *)
Definition in_window (now : Z) (dt : option Z) (days : Z) : bool :=
  match dt with
  | None => false
  | Some d => delta_days now d <=? days
  end.

(** Proleptic Gregorian date of a day count since 1970-01-01. *)
Definition civil_from_days (z : Z) : Z * Z * Z :=
  let z := z + 719468 in
  let era := z / 146097 in
  let doe := z - era * 146097 in
  let yoe := (doe - doe / 1460 + doe / 36524 - doe / 146096) / 365 in
  let doy := doe - (365 * yoe + yoe / 4 - yoe / 100) in
  let mp := (5 * doy + 2) / 153 in
  let d := doy - (153 * mp + 2) / 5 + 1 in
  let m := if mp <? 10 then mp + 3 else mp - 9 in
  let y := yoe + era * 400 + (if m <=? 2 then 1 else 0) in
  (y, m, d).

(** Day count since 1970-01-01 of a proleptic Gregorian date. *)
Definition days_from_civil (y m d : Z) : Z :=
  let y := if m <=? 2 then y - 1 else y in
  let era := y / 400 in
  let yoe := y - era * 400 in
  let doy := (153 * (if 2 <? m then m - 3 else m + 9) + 2) / 5 + d - 1 in
  let doe := yoe * 365 + yoe / 4 - yoe / 100 + doy in
  era * 146097 + doe - 719468.

Definition dec (n : Z) : string := NilZero.string_of_uint (N.to_uint (Z.to_N n)).

Definition dec2 (n : Z) : string := if n <? 10 then "0" +:+ dec n else dec n.

(** [dt.strftime("%Y-%m-%d")] for a UTC instant (years 1000 to 9999). *)
Definition strftime_ymd (dt : Z) : string :=
  let '(y, m, d) := civil_from_days (dt / DAY_US) in
  dec y +:+ "-" +:+ dec2 m +:+ "-" +:+ dec2 d.

(** Midnight UTC of a calendar date, as an instant. *)
Definition utc (y m d : Z) : Z := days_from_civil y m d * DAY_US.

(** A reference parser for running the pipeline on concrete entries: it
    accepts the calendar dates written [YYYY-MM-DD], which the free-text
    parser reads as midnight UTC of that day, and rejects everything else. *)
Definition digit_val (c : ascii) : option Z :=
  if is_digit c then Some (Z.of_nat (nat_of_ascii c) - 48) else None.

Fixpoint digits_val (acc : Z) (l : list ascii) : option Z :=
  match l with
  | [] => Some acc
  | c :: r =>
      match digit_val c with
      | Some d => digits_val (10 * acc + d) r
      | None => None
      end
  end.

Definition parse_iso_date (s : string) : option Z :=
  match list_ascii_of_string s with
  | [y1; y2; y3; y4; s1; m1; m2; s2; d1; d2] =>
      if Ascii.eqb s1 dash && Ascii.eqb s2 dash then
        match digits_val 0 [y1; y2; y3; y4], digits_val 0 [m1; m2], digits_val 0 [d1; d2] with
        | Some y, Some m, Some d =>
            let n := days_from_civil y m d in
            if (1 <=? y) && (1 <=? m) && (m <=? 12) && (1 <=? d)
               && bool_decide (civil_from_days n = (y, m, d))
            then Some (n * DAY_US) else None
        | _, _, _ => None
        end
      else None
  | _ => None
  end.

(** ** Feed entries *)

(** The values a raw entry can hold, as far as the pipeline looks at them:
    [None], a string, a [time.struct_time] (represented by the UTC instant
    its first six fields denote, which is the [datetime] that [pick_date]
    builds from them), or any other object, of which only the truth value
    is observed. *)
Inductive value :=
  | VNone
  | VStr (s : string)
  | VTime (t : Z)
  | VOther (truth : bool).

Definition truthy (v : value) : bool :=
  match v with
  | VNone => false
  | VStr s => negb (String.eqb s "")
  | VTime _ => true
  | VOther b => b
  end.

(** [a or b] *)
Definition py_or (a b : value) : value := if truthy a then a else b.

Abbreviation entry := (gmap string value).

(** [e.get(k)] *)
Definition get (e : entry) (k : string) : value := default VNone (e !! k).

(** [e.get(k, d)] *)
Definition get_default (e : entry) (k : string) (d : value) : value := default d (e !! k).

(** [k in e] *)
Definition has_key (e : entry) (k : string) : bool :=
  match e !! k with Some _ => true | None => false end.

(** Outcomes of code that may raise.  [Unmodelled] marks inputs on which
    the Python behaviour depends on object representations that [value]
    does not carry. *)
Inductive exn := TypeError | Unmodelled.

Inductive result (A : Type) :=
  | Ok (a : A)
  | Raise (e : exn).
Arguments Ok {A} a.
Arguments Raise {A} e.

Definition bind {A B} (m : result A) (k : A -> result B) : result B :=
  match m with
  | Ok a => k a
  | Raise e => Raise e
  end.

Notation "'let*' x ':=' m 'in' k" := (bind m (fun x => k))
  (at level 10, x name, m at level 200, k at level 200).

(** The text of a value interpolated in an f-string.  The [str()] of
    objects other than strings and [None] is not modelled. *)
Definition format_value (v : value) : result string :=
  match v with
  | VStr s => Ok s
  | VNone => Ok "None"
  | _ => Raise Unmodelled
  end.

(** A value that the code slices; slices of objects other than strings
    are not modelled. *)
Definition as_str (v : value) : result string :=
  match v with
  | VStr s => Ok s
  | _ => Raise Unmodelled
  end.

(** A loop whose body may raise. *)
Fixpoint foldM {A B} (f : A -> B -> result A) (l : list B) (a : A) : result A :=
  match l with
  | [] => Ok a
  | x :: r => let* a' := f a x in foldM f r a'
  end.

Section Parsing.

(** [dateutil.parser.parse] followed by the UTC normalisation of
    [norm_date]: [None] when the parser raises. *)
Variable parse : string -> option Z.

(** [norm_date(s)] (identical in both files).  Only a non-empty string
    reaches a successful parse; the parser raises on any other object,
    which [norm_date] turns into [None]. *)
Definition norm_date (s : value) : option Z :=
  if negb (truthy s) then None
  else match s with
       | VStr s => parse s
       | _ => None
       end.

(** The loop of [pick_date] over the candidate fields. *)
Fixpoint pick_date_loop (e : entry) (ks : list string) : option Z :=
  match ks with
  | [] => None
  | k :: ks' =>
      let v := py_or (get e k) (get e (k +:+ "_parsed")) in
      match v with
      | VTime t => Some t
      | VStr _ =>
          match norm_date v with
          | Some d => Some d
          | None => pick_date_loop e ks'
          end
      | _ => pick_date_loop e ks'
      end
  end.

Definition DATE_FIELDS : list string := ["published"; "updated"; "date"; "created"].

End Parsing.

(** ** Snapshots *)

#[local] Unset Elimination Schemes.
Inductive json :=
  | JNull
  | JBool (b : bool)
  | JNum (n : Z)
  | JStr (s : string)
  | JArr (l : list json)
  | JObj (o : list (string * json)).
#[local] Set Elimination Schemes.

(** A JSON object, in key order. *)
Abbreviation jdict := (list (string * json)).

Definition jtruthy (j : json) : bool :=
  match j with
  | JNull => false
  | JBool b => b
  | JNum n => negb (n =? 0)
  | JStr s => negb (String.eqb s "")
  | JArr l => match l with [] => false | _ => true end
  | JObj o => match o with [] => false | _ => true end
  end.

Definition jor (a b : json) : json := if jtruthy a then a else b.

Fixpoint dict_get (k : string) (o : jdict) : option json :=
  match o with
  | [] => None
  | (k', v) :: r => if String.eqb k k' then Some v else dict_get k r
  end.

(** [it.get(k)] on a snapshot item. *)
Definition jget (o : jdict) (k : string) : json := default JNull (dict_get k o).

(** [isinstance(it, dict)] *)
Definition as_dict (j : json) : option jdict :=
  match j with
  | JObj o => Some o
  | _ => None
  end.

(** [for it in existing]: a list yields its elements, a string its
    characters, a dict its keys; any other JSON value is not iterable. *)
Definition py_iter (j : json) : result (list json) :=
  match j with
  | JArr l => Ok l
  | JStr s => Ok (map (fun c => JStr (String c EmptyString)) (list_ascii_of_string s))
  | JObj o => Ok (map (fun kv => JStr (fst kv)) o)
  | _ => Raise TypeError
  end.

(** [l[:top]]: a negative bound counts from the end. *)
Definition py_slice_to {A} (top : Z) (l : list A) : list A :=
  if 0 <=? top then take (Z.to_nat top) l
  else take (length l - Z.to_nat (- top))%nat l.

(** What the file system holds at a path. *)
Inductive file :=
  | Missing
  | Unreadable
  | Content (parsed : option json).

(** The persisted unit. *)
Record Item := {
  id : string;
  date : string;
  name : string;
  vendor : string;
  type : string;
  summary : string;
  sources : list (string * string);
  impact : Z;
  risk : Z;
  audience : string;
  tags : list string
}.

Definition source_json (s : string * string) : json :=
  JObj [("title", JStr (fst s)); ("url", JStr (snd s))].

(** The dict literal of [main], in key order. *)
Definition item_json (it : Item) : jdict :=
  [ ("id", JStr (id it));
    ("date", JStr (date it));
    ("name", JStr (name it));
    ("vendor", JStr (vendor it));
    ("type", JStr (type it));
    ("summary", JStr (summary it));
    ("sources", JArr (map source_json (sources it)));
    ("impact", JNum (impact it));
    ("risk", JNum (risk it));
    ("audience", JStr (audience it));
    ("tags", JArr (map JStr (tags it))) ].

(** [e.get("title") or e.get("heading") or ""] *)
Definition entry_title (e : entry) : value :=
  py_or (py_or (get e "title") (get e "heading")) (VStr "").

(** [e.get("link") or e.get("url") or ""] *)
Definition entry_link (e : entry) : value :=
  py_or (py_or (get e "link") (get e "url")) (VStr "").

(** A configured vendor, each feed given by the entries fetched from it. *)
Record vendor_cfg := {
  v_name : string;
  v_audience : string;
  v_impact : Z;
  v_risk : Z;
  v_keywords : list string;
  v_feeds : list (list entry)
}.

(** [match(text, kws)] / [match_keywords(text, kws)] *)
Definition match_kw (text : string) (kws : list string) : bool :=
  let t := lower text in
  existsb (fun k => str_in (lower k) t) kws.

(** ** Sorting *)

(** [sorted(..., key=key, reverse=True)]: Python's sort is stable, also
    when reversed, so elements with equal keys keep their order.  An
    element is inserted after the elements with a strictly greater key. *)
Section StableSort.
Context {A K : Type} (key : A -> K) (ltb : K -> K -> bool).

Fixpoint insert_desc (x : A) (l : list A) : list A :=
  match l with
  | [] => [x]
  | y :: r => if ltb (key x) (key y) then y :: insert_desc x r else x :: l
  end.

Fixpoint sort_desc (l : list A) : list A :=
  match l with
  | [] => []
  | x :: r => insert_desc x (sort_desc r)
  end.

(** [a] may stand before [b] in descending order. *)
Definition desc (a b : A) : Prop := ltb (key a) (key b) = false.

End StableSort.

(** Order of the tuples [(date, vendor)]. *)
Definition pair_ltb (a b : string * string) : bool :=
  String.ltb (fst a) (fst b) || (String.eqb (fst a) (fst b) && String.ltb (snd a) (snd b)).

(** ** The incremental variant: scripts/build_agent_radar.py *)

Module Scripts.

Definition GLOBAL_KEYS : list string :=
  [ "agent"; "agents"; "agent engine"; "agent builder"; "agentspace"; "a2a"; "mcp";
    "governance"; "rbac"; "observability"; "pricing"; "ga"; "general availability";
    "deprecate"; "deprecation"; "sunset"; "identity"; "memory" ].

(** [classify(text)], scripts/build_agent_radar.py lines 75-80. *)
Definition classify (text : string) : string :=
  let t := lower text in
  if str_in "deprecat" t || str_in "sunset" t then "deprecation"
  else if str_in "pricing" t || str_in "price" t || str_in "$" t then "pricing"
  else if str_in "ga" t || str_in "general availability" t
          || str_in "launch" t || str_in "introduc" t then "launch"
  else "upgrade".

(** [safe_id(date_str, vendor, title)], lines 82-85. *)
Definition safe_id (date_str vendor title : string) : string :=
  let slug := str_take 50 (slugify title) in
  let vendor_slug := slugify vendor in
  date_str +:+ "-" +:+ vendor_slug +:+ "-" +:+ slug.

Record args := {
  infile : string;
  days : Z;
  top : Z
}.

(** The loop state of [main]: the accumulated list, the set of ids seen,
    and the number of clock readings taken so far. *)
Record state := {
  merged : list jdict;
  seen : gset string;
  ticks : nat
}.

(** [it.get("id") or ""] *)
Definition id_key (it : jdict) : json := jor (jget it "id") (JStr "").

(** [it.get("date") or ""], the sort key [key_date]. *)
Definition key_date (it : jdict) : json := jor (jget it "date") (JStr "").

(** Lists and dicts are not hashable. *)
Definition hashable (j : json) : bool :=
  match j with
  | JArr _ | JObj _ => false
  | _ => true
  end.

Definition str_of_json (j : json) : option string :=
  match j with
  | JStr s => Some s
  | _ => None
  end.

(** The sort key as a string; the empty string stands in where the key is
    no string ([main] sorts only lists whose keys are all strings). *)
Definition date_of (it : jdict) : string := default "" (str_of_json (key_date it)).

Section World.

Variable parse : string -> option Z.

(** [html_summary(url)], the fallback description fetched from the page. *)
Variable html_summary : string -> string.

(** The successive readings of [datetime.now(timezone.utc)]. *)
Variable clock : nat -> Z.

(** The file system seen by [load_existing]. *)
Variable fs : string -> file.

(** [pick_date(entry)], lines 50-61. *)
Definition pick_date (e : entry) : option Z :=
  match pick_date_loop parse e DATE_FIELDS with
  | Some d => Some d
  | None =>
      if has_key e "date_published" then norm_date parse (get e "date_published")
      else None
  end.

(** [load_existing(path)], lines 87-93.  Calling [get] on a parsed value
    that is neither a list nor a dict raises inside the [try]. *)
Definition load_existing (path : string) : json :=
  if String.eqb path "" then JArr []
  else match fs path with
       | Missing => JArr []
       | Unreadable => JArr []
       | Content None => JArr []
       | Content (Some j) =>
           match j with
           | JArr _ => j
           | JObj o => default (JArr []) (dict_get "items" o)
           | _ => JArr []
           end
       end.

(** Lines 104-106.  The set [seen] holds the hashable ids; since it is
    only ever searched for a [str], its string members are kept. *)
Definition init_state (path : string) : result state :=
  let existing := load_existing path in
  let* its := py_iter existing in
  let dicts := omap as_dict its in
  if forallb (fun it => hashable (id_key it)) dicts
  then Ok {| merged := dicts;
             seen := list_to_set (omap (fun it => str_of_json (id_key it)) dicts);
             ticks := 0 |}
  else Raise TypeError.

Definition build_item (v : vendor_cfg) (eid date_str title ttype summ link : string) : Item :=
  {| id := eid;
     date := date_str;
     name := str_take 160 title;
     vendor := v_name v;
     type := ttype;
     summary := summ;
     sources := [(v_name v +:+ " source", link)];
     impact := v_impact v;
     risk := v_risk v;
     audience := v_audience v;
     tags := [] |}.

(** The body of the loop over the entries of one feed, lines 122-154.
    [in_window] reads the clock only when a date was found.  The keywords
    [sorted(set(GLOBAL_KEYS + keywords))] are only searched with [any], for
    which the concatenation has the same members. *)
Definition process_entry (days : Z) (v : vendor_cfg) (st : state) (e : entry) : result state :=
  let kws := GLOBAL_KEYS ++ v_keywords v in
  let title := entry_title e in
  let link := entry_link e in
  if negb (truthy link) || negb (truthy title) then Ok st else
  match pick_date e with
  | None => Ok st
  | Some dt =>
      let now := clock (ticks st) in
      let st := {| merged := merged st; seen := seen st; ticks := S (ticks st) |} in
      if negb (in_window now (Some dt) days) then Ok st else
      let desc := py_or (py_or (get e "summary") (get e "content_text")) (VStr "") in
      let* title_s := format_value title in
      let* desc_s := format_value desc in
      let* link_s := format_value link in
      let text := title_s +:+ " " +:+ desc_s +:+ " " +:+ link_s in
      if negb (match_kw text kws) then Ok st else
      let ttype := classify text in
      let date_str := strftime_ymd dt in
      let eid := safe_id date_str (v_name v) title_s in
      if bool_decide (eid ∈ seen st) then Ok st else
      let summ := str_take 220 desc_s in
      let summ := if String.eqb summ "" then html_summary link_s else summ in
      let item := build_item v eid date_str title_s ttype summ link_s in
      Ok {| merged := merged st ++ [item_json item];
            seen := {[eid]} ∪ seen st;
            ticks := ticks st |}
  end.

Definition process_feed (days : Z) (v : vendor_cfg) (st : state) (entries : list entry) : result state :=
  foldM (process_entry days v) entries st.

Definition process_vendor (days : Z) (st : state) (v : vendor_cfg) : result state :=
  foldM (process_feed days v) (v_feeds v) st.

(** Lines 104-154: the list [merged] before it is sorted. *)
Definition accumulate (a : args) (cfg : list vendor_cfg) : result (list jdict) :=
  let* st0 := init_state (infile a) in
  let* st := foldM (process_vendor (days a)) cfg st0 in
  Ok (merged st).

(** Lines 156-159.  Comparing sort keys that are not all strings is not
    modelled. *)
Definition sort_and_cut (top : Z) (l : list jdict) : result (list jdict) :=
  if forallb (fun it => bool_decide (is_Some (str_of_json (key_date it)))) l
  then Ok (py_slice_to top (sort_desc date_of String.ltb l))
  else Raise Unmodelled.

(** [main], up to the snapshot handed to [save_out]. *)
Definition main (a : args) (cfg : list vendor_cfg) : result (list jdict) :=
  let* l := accumulate a cfg in
  sort_and_cut (top a) l.

End World.

End Scripts.

(** ** The stateless variant: .github/workflows/build_agent_radar.py *)

Module Workflow.

Definition KEYS : list string :=
  [ "agent"; "agents"; "agent os"; "agent engine"; "agent builder"; "mcp"; "guardrails";
    "governance"; "observability"; "trace"; "pricing"; "ga"; "general availability";
    "deprecation"; "vertex"; "bedrock"; "langgraph" ].

(** The inline classification of [main], workflow lines 99-106: three
    independent tests, each overwriting [tp]. *)
Definition classify_inline (text : string) : string :=
  let lower := lower text in
  let tp := "upgrade" in
  let tp := if str_in "ga" lower || str_in "general availability" lower
               || str_in "launch" lower || str_in "introduc" lower
            then "launch" else tp in
  let tp := if str_in "deprecat" lower || str_in "sunset" lower
            then "deprecation" else tp in
  let tp := if str_in "pricing" lower || str_in "$" lower || str_in "price" lower
            then "pricing" else tp in
  tp.

(** The ["id"] expression of [main], workflow line 114. *)
Definition item_id (date_str vendor title : string) : string :=
  date_str +:+ "-" +:+ lower vendor +:+ "-" +:+ str_take 40 (slugify title).

Record args := {
  days : Z;
  top : Z
}.

Record state := {
  items : list Item;
  ticks : nat
}.

Section World.

Variable parse : string -> option Z.
Variable html_summary : string -> string.
Variable clock : nat -> Z.

(** [pick_date(entry)], lines 42-50. *)
Definition pick_date (e : entry) : option Z := pick_date_loop parse e DATE_FIELDS.

(** [pick_date(e) or norm_date(e.get("date_published"))], line 91. *)
Definition entry_date (e : entry) : option Z :=
  match pick_date e with
  | Some d => Some d
  | None => norm_date parse (get e "date_published")
  end.

Definition build_item (v : vendor_cfg) (date_str title tp summ link : string) : Item :=
  {| id := item_id date_str (v_name v) title;
     date := date_str;
     name := str_take 120 title;
     vendor := v_name v;
     type := tp;
     summary := summ;
     sources := [(v_name v +:+ " source", link)];
     impact := v_impact v;
     risk := v_risk v;
     audience := v_audience v;
     tags := [] |}.

(** The body of the loop over the entries of one feed, lines 87-126; the
    keywords [list(set(KEYS + keywords))] are only searched with [any]. *)
Definition process_entry (days : Z) (v : vendor_cfg) (st : state) (e : entry) : result state :=
  let kws := KEYS ++ v_keywords v in
  let title := entry_title e in
  let link := entry_link e in
  if negb (truthy link) then Ok st else
  match entry_date e with
  | None => Ok st
  | Some dt =>
      let now := clock (ticks st) in
      let st := {| items := items st; ticks := S (ticks st) |} in
      if negb (in_window now (Some dt) days) then Ok st else
      let desc := py_or (get e "summary") (get_default e "content" (VStr "")) in
      let* title_s := format_value title in
      let* desc_s := format_value desc in
      let* link_s := format_value link in
      let text := title_s +:+ " " +:+ desc_s +:+ " " +:+ link_s in
      if negb (match_kw text kws) then Ok st else
      let tp := classify_inline text in
      let* summ := as_str (py_or (py_or (get e "summary") (get e "content_text")) (VStr "")) in
      let summ := str_take 220 summ in
      let summ := if String.eqb summ "" then html_summary link_s else summ in
      let item := build_item v (strftime_ymd dt) title_s tp summ link_s in
      Ok {| items := items st ++ [item]; ticks := ticks st |}
  end.

Definition process_feed (days : Z) (v : vendor_cfg) (st : state) (entries : list entry) : result state :=
  foldM (process_entry days v) entries st.

Definition process_vendor (days : Z) (st : state) (v : vendor_cfg) : result state :=
  foldM (process_feed days v) (v_feeds v) st.

(** Lines 70-126: the list [items] in encounter order. *)
Definition collect (a : args) (cfg : list vendor_cfg) : result (list Item) :=
  let* st := foldM (process_vendor (days a)) cfg {| items := []; ticks := 0 |} in
  Ok (items st).

(** The sort key of line 131. *)
Definition sort_key (it : Item) : string * string := (date it, vendor it).

(** The deduplication loop of lines 129-135, over the sorted items. *)
Fixpoint dedup_loop (seen : gset (string * string)) (l : list Item) : list Item :=
  match l with
  | [] => []
  | it :: r =>
      let key := (vendor it, name it) in
      if bool_decide (key ∈ seen) then dedup_loop seen r
      else it :: dedup_loop ({[key]} ∪ seen) r
  end.

Definition rank (top : Z) (l : list Item) : list Item :=
  py_slice_to top (dedup_loop ∅ (sort_desc sort_key pair_ltb l)).

(** [main], up to the list written under ["items"]. *)
Definition main (a : args) (cfg : list vendor_cfg) : result (list Item) :=
  let* l := collect a cfg in
  Ok (rank (top a) l).

End World.

End Workflow.

(** ** Fetching: feeds, JSON documents and page summaries *)

(** [s.endswith(suffix)] *)
Fixpoint str_ends_with (suffix s : string) : bool :=
  String.eqb s suffix ||
  match s with
  | String _ r => str_ends_with suffix r
  | EmptyString => false
  end.

(** The ASCII characters that [str.strip()] removes. *)
Definition is_space (c : ascii) : bool :=
  let n := nat_of_ascii c in
  ((9 <=? n)%nat && (n <=? 13)%nat) || ((28 <=? n)%nat && (n <=? 32)%nat).

Fixpoint lstrip_ws (s : string) : string :=
  match s with
  | String c r => if is_space c then lstrip_ws r else s
  | EmptyString => EmptyString
  end.

Fixpoint rstrip_ws (s : string) : string :=
  match s with
  | EmptyString => EmptyString
  | String c r =>
      match rstrip_ws r with
      | EmptyString => if is_space c then EmptyString else String c EmptyString
      | r' => String c r'
      end
  end.

(** [s.strip()] *)
Definition strip_ws (s : string) : string := rstrip_ws (lstrip_ws s).

(** A tag of a parsed page, as far as [html_summary] looks at it: its
    [content] attribute, when it has one, and its [get_text(strip=True)]. *)
Record tag := {
  attr_content : option string;
  tag_text : string
}.

(** A parsed page: the first [meta] tag named [description] and the first
    [p] tag, each when there is one. *)
Record page := {
  meta_description : option tag;
  first_p : option tag
}.

(** What [fetch_feed] returns: the empty dict, [{"feed": ...}] with the
    entries of the parsed feed, or [{"json": ...}]. *)
Inductive feed_data :=
  | NoData
  | FeedData (entries : list entry)
  | JsonData (j : json).

(** The exceptions of the loop over the entries of a JSON document:
    calling [get] on an object without it, iterating a value that is not
    iterable. *)
Inductive loop_error := AttributeError | NotIterable.

Inductive entries_result :=
  | Entries (es : list entry)
  | LoopRaises (e : loop_error).

(** A JSON value as the pipeline sees it in an entry. *)
Definition value_of_json (j : json) : value :=
  match j with
  | JNull => VNone
  | JStr s => VStr s
  | _ => VOther (jtruthy j)
  end.

(** A JSON object used as an entry. *)
Definition entry_of_json (o : jdict) : entry :=
  list_to_map (map (fun kv => (fst kv, value_of_json (snd kv))) o).

(** [j.get("items", j.get("value", {}).get("items", []))]: the default is
    computed before the lookup, so [get] is called on whatever [value]
    holds.  [None] stands for the [AttributeError] of a [get] on a value
    that is no dict. *)
Definition json_items (j : json) : option json :=
  match j with
  | JObj o =>
      match default (JObj []) (dict_get "value" o) with
      | JObj vo =>
          let fallback := default (JArr []) (dict_get "items" vo) in
          Some (default fallback (dict_get "items" o))
      | _ => None
      end
  | _ => None
  end.

(** The elements of a list as entries; the loop body starts with
    [e.get("title")], which raises on an element that is no dict. *)
Fixpoint dict_entries (l : list json) : entries_result :=
  match l with
  | [] => Entries []
  | JObj o :: r =>
      match dict_entries r with
      | Entries es => Entries (entry_of_json o :: es)
      | LoopRaises e => LoopRaises e
      end
  | _ :: _ => LoopRaises AttributeError
  end.

(** [for e in entries] over a JSON value: the characters of a string and
    the keys of a dict are strings, on which the loop body raises. *)
Definition iter_entries (x : json) : entries_result :=
  match x with
  | JArr l => dict_entries l
  | JStr s => if String.eqb s "" then Entries [] else LoopRaises AttributeError
  | JObj o => match o with [] => Entries [] | _ => LoopRaises AttributeError end
  | _ => LoopRaises NotIterable
  end.

Module ScriptsIO.
Section Net.

(** [requests.get(url, timeout=20).json()], [None] when it raises. *)
Variable http_json : string -> option json.

(** The entries of [feedparser.parse(url)], [None] when it raises. *)
Variable feedparser_parse : string -> option (list entry).

(** The page behind a URL, fetched and parsed; [None] when the request,
    [raise_for_status] or the parser raises. *)
Variable http_page : string -> option page.

(** [fetch_feed(url)], lines 63-69. *)
Definition fetch_feed (url : string) : feed_data :=
  if str_ends_with ".json" url then
    match http_json url with
    | Some j => JsonData j
    | None => NoData
    end
  else
    match feedparser_parse url with
    | Some es => FeedData es
    | None => NoData
    end.

(** The entries that [main] loops over, lines 116-122. *)
Definition feed_entries (data : feed_data) : entries_result :=
  match data with
  | NoData => Entries []
  | FeedData es => Entries es
  | JsonData j =>
      match json_items j with
      | Some x => iter_entries (jor x (JArr []))
      | None => LoopRaises AttributeError
      end
  end.

(** [html_summary(url)], lines 38-48. *)
Definition html_summary (url : string) : string :=
  match http_page url with
  | None => ""
  | Some pg =>
      let from_p := str_take 240 (match first_p pg with
                                  | Some p => tag_text p
                                  | None => ""
                                  end) in
      match meta_description pg with
      | Some m =>
          match attr_content m with
          | Some c => if negb (String.eqb c "") then str_take 240 c else from_p
          | None => from_p
          end
      | None => from_p
      end
  end.

End Net.
End ScriptsIO.

Module WorkflowIO.
Section Net.

(** [requests.get(url, timeout=20)], [raise_for_status] and [r.json()],
    [None] when one of them raises. *)
Variable http_json : string -> option json.
Variable feedparser_parse : string -> option (list entry).
Variable http_page : string -> option page.

(** [fetch_feed(url)], lines 32-40. *)
Definition fetch_feed (url : string) : feed_data :=
  if str_ends_with ".json" url then
    match http_json url with
    | Some j => JsonData j
    | None => NoData
    end
  else
    match feedparser_parse url with
    | Some es => FeedData es
    | None => NoData
    end.

(** The entries that [main] loops over, lines 80-87. *)
Definition feed_entries (data : feed_data) : entries_result :=
  match data with
  | NoData => Entries []
  | FeedData es => Entries es
  | JsonData j =>
      match json_items j with
      | Some x => iter_entries x
      | None => LoopRaises AttributeError
      end
  end.

(** [html_summary(url)], lines 52-61: the tag is the description if there
    is one, else the first paragraph. *)
Definition html_summary (url : string) : string :=
  match http_page url with
  | None => ""
  | Some pg =>
      let p := match meta_description pg with
               | Some m => Some m
               | None => first_p pg
               end in
      str_take 240 (strip_ws (match p with
                              | Some t =>
                                  match attr_content t with
                                  | Some c => c
                                  | None => tag_text t
                                  end
                              | None => ""
                              end))
  end.

End Net.
End WorkflowIO.

(** The object that [save_out] dumps, line 98. *)
Definition snapshot_doc (items : list jdict) : json :=
  JObj [("items", JArr (map JObj items))].

(** ** Specification-side definitions *)

Definition mentions_deprecation (t : string) : bool :=
  str_in "deprecat" t || str_in "sunset" t.

Definition mentions_pricing (t : string) : bool :=
  str_in "pricing" t || str_in "price" t || str_in "$" t.

Definition mentions_launch (t : string) : bool :=
  str_in "ga" t || str_in "general availability" t || str_in "launch" t || str_in "introduc" t.

Definition starts_alnum (s : string) : bool :=
  match s with
  | String c _ => is_alnum_lc c
  | EmptyString => false
  end.

(** The maximal runs of characters of [a-z0-9] in a text. *)
Fixpoint alnum_words (s : string) : list string :=
  match s with
  | EmptyString => []
  | String c r =>
      if is_alnum_lc c then
        if starts_alnum r then
          match alnum_words r with
          | w :: ws => String c w :: ws
          | [] => [String c EmptyString]
          end
        else String c EmptyString :: alnum_words r
      else alnum_words r
  end.

Fixpoint join_dash (ws : list string) : string :=
  match ws with
  | [] => EmptyString
  | [w] => w
  | w :: ws' => w +:+ "-" +:+ join_dash ws'
  end.

(** The slug in the words of the specification: the text is lower-cased,
    every run of other characters becomes one separator, and no separator
    is left at either end. *)
Definition slug_spec (s : string) : string := join_dash (alnum_words (lower s)).

Fixpoint first_some {A} (l : list (option A)) : option A :=
  match l with
  | [] => None
  | Some a :: _ => Some a
  | None :: r => first_some r
  end.

(** What one field contributes in [pick_date]: the value of the field
    itself when it is truthy, else the value of its [_parsed] companion;
    a structured time is taken as it is and a string goes through the
    parser. *)
Definition field_date (parse : string -> option Z) (e : entry) (k : string) : option Z :=
  match py_or (get e k) (get e (k +:+ "_parsed")) with
  | VTime t => Some t
  | VStr s => if String.eqb s "" then None else parse s
  | _ => None
  end.

(** The resolution as C5 words it: for each field the structured value is
    looked at first, and the string form only otherwise. *)
Definition field_date_as_claimed (parse : string -> option Z) (e : entry) (k : string) : option Z :=
  match get e (k +:+ "_parsed") with
  | VTime t => Some t
  | _ => norm_date parse (get e k)
  end.

Definition pick_date_as_claimed (parse : string -> option Z) (e : entry) : option Z :=
  first_some (map (field_date_as_claimed parse e) DATE_FIELDS
              ++ [norm_date parse (get e "date_published")]).

(** An item built by [main]: one source, made from one link. *)
Definition single_source (it : Item) : Prop :=
  exists link, sources it = [(vendor it +:+ " source", link)].

(** [st'] is [st] with freshly built items appended, none of which has an
    id that was seen before. *)
Definition extends (st st' : Scripts.state) : Prop :=
  exists news : list Item,
    Scripts.merged st' = Scripts.merged st ++ map item_json news /\
    Scripts.seen st' = list_to_set (map id news) ∪ Scripts.seen st /\
    NoDup (map id news) /\
    (forall it, it ∈ news -> id it ∉ Scripts.seen st) /\
    Forall single_source news.

(** The key of the deduplication loop. *)
Definition dedup_key (it : Item) : string * string := (vendor it, name it).

Definition grows (st st' : Workflow.state) : Prop :=
  exists news : list Item,
    Workflow.items st' = Workflow.items st ++ news /\ Forall single_source news.

(** The four labels of an item. *)
Definition LABELS : list string := ["deprecation"; "pricing"; "launch"; "upgrade"].

(** [it] is the item that the scripts variant builds from the entry [e]
    of the vendor [v]: the entry has a title and a link, its timestamp was
    inside the window at some reading of the clock, and its text matches a
    keyword. *)
Definition scripts_item_of (parse : string -> option Z) (html_summary : string -> string)
    (clock : nat -> Z) (days : Z) (v : vendor_cfg) (e : entry) (it : Item) : Prop :=
  exists title link desc dt n,
    entry_title e = VStr title /\ title <> "" /\
    entry_link e = VStr link /\ link <> "" /\
    Scripts.pick_date parse e = Some dt /\
    in_window (clock n) (Some dt) days = true /\
    py_or (py_or (get e "summary") (get e "content_text")) (VStr "") = VStr desc /\
    match_kw (title +:+ " " +:+ desc +:+ " " +:+ link)
      (Scripts.GLOBAL_KEYS ++ v_keywords v) = true /\
    it = Scripts.build_item v
           (Scripts.safe_id (strftime_ymd dt) (v_name v) title) (strftime_ymd dt) title
           (Scripts.classify (title +:+ " " +:+ desc +:+ " " +:+ link))
           (if String.eqb (str_take 220 desc) "" then html_summary link else str_take 220 desc)
           link.

(** The same for the workflow variant, where the title may be empty and
    the text and the summary are taken from different fields. *)
Definition workflow_item_of (parse : string -> option Z) (html_summary : string -> string)
    (clock : nat -> Z) (days : Z) (v : vendor_cfg) (e : entry) (it : Item) : Prop :=
  exists title link desc summ dt n,
    entry_title e = VStr title /\
    entry_link e = VStr link /\ link <> "" /\
    Workflow.entry_date parse e = Some dt /\
    in_window (clock n) (Some dt) days = true /\
    format_value (py_or (get e "summary") (get_default e "content" (VStr ""))) = Ok desc /\
    match_kw (title +:+ " " +:+ desc +:+ " " +:+ link)
      (Workflow.KEYS ++ v_keywords v) = true /\
    py_or (py_or (get e "summary") (get e "content_text")) (VStr "") = VStr summ /\
    it = Workflow.build_item v (strftime_ymd dt) title
           (Workflow.classify_inline (title +:+ " " +:+ desc +:+ " " +:+ link))
           (if String.eqb (str_take 220 summ) "" then html_summary link else str_take 220 summ)
           link.

(** [it] comes from an entry of a feed of a configured vendor. *)
Definition from_config (item_of : vendor_cfg -> entry -> Item -> Prop)
    (cfg : list vendor_cfg) (it : Item) : Prop :=
  exists v f e, v ∈ cfg /\ f ∈ v_feeds v /\ e ∈ f /\ item_of v e it.

(** [st'] is [st] with items satisfying [P] appended. *)
Definition adds (P : Item -> Prop) (st st' : Scripts.state) : Prop :=
  exists news : list Item,
    Scripts.merged st' = Scripts.merged st ++ map item_json news /\ Forall P news.

Definition wadds (P : Item -> Prop) (st st' : Workflow.state) : Prop :=
  exists news : list Item,
    Workflow.items st' = Workflow.items st ++ news /\ Forall P news.

(** The characters of a slug. *)
Definition is_slug_char (c : ascii) : bool := is_alnum_lc c || Ascii.eqb c dash.

(** The fields of an item built for a vendor of the configuration, with
    the cap on the length of its name. *)
Definition item_fields_ok (cfg : list vendor_cfg) (cap : nat) (it : Item) : Prop :=
  (String.length (name it) <= cap)%nat /\
  (String.length (summary it) <= 240)%nat /\
  type it ∈ LABELS /\
  (exists link, link <> "" /\ sources it = [(vendor it +:+ " source", link)]) /\
  tags it = [] /\
  exists v, v ∈ cfg /\ vendor it = v_name v /\ impact it = v_impact v /\
            risk it = v_risk v /\ audience it = v_audience v.


(** A non-empty word of characters of [a-z0-9]. *)
Definition alnum_word (w : string) : Prop :=
  w <> "" /\ Forall (fun c => is_alnum_lc c = true) (list_ascii_of_string w).

(** No entry in any feed of any vendor. *)
Definition no_entries (cfg : list vendor_cfg) : Prop :=
  Forall (fun v => Forall (fun f => f = []) (v_feeds v)) cfg.

(** ** Example data *)

Definition sixty_a : string := string_of_list_ascii (replicate 60 "a"%char).

(** An entry whose [published] string the parser rejects, next to the
    structured time that the feed parser attached. *)
Definition entry_tbd : entry :=
  list_to_map [ ("title", VStr "Agent Engine GA"); ("link", VStr "https://x.com/a");
                ("published", VStr "soon"); ("published_parsed", VTime (utc 2024 1 10)) ].

(** The page of an entry cannot be fetched: [html_summary] gives the empty
    string. *)
Definition demo_html (url : string) : string := "".

(** The clock of a run on 2024-01-12, one microsecond per reading. *)
Definition demo_clock (n : nat) : Z := utc 2024 1 12 + Z.of_nat n.

Definition prior_foo : jdict :=
  [ ("id", JStr "2024-01-01-acme-foo"); ("date", JStr "2024-01-01");
    ("name", JStr "Foo"); ("vendor", JStr "Acme") ].

(** A snapshot file holding [prior_foo], and files whose JSON is not a
    snapshot. *)
Definition demo_fs (path : string) : file :=
  if String.eqb path "data/agent-radar.json"
  then Content (Some (JObj [("items", JArr [JObj prior_foo])]))
  else if String.eqb path "data/twice.json"
  then Content (Some (JArr [JObj prior_foo; JObj prior_foo]))
  else if String.eqb path "data/number.json"
  then Content (Some (JObj [("items", JNum 5)]))
  else Missing.

Definition entry_foo : entry :=
  list_to_map [ ("title", VStr "Foo"); ("link", VStr "https://acme.example/agents/foo");
                ("published", VStr "2024-01-01") ].

Definition entry_ga : entry :=
  list_to_map [ ("title", VStr "Agent Engine GA"); ("link", VStr "https://acme.example/a");
                ("published", VStr "2024-01-10") ].


Definition entry_ga_again : entry :=
  list_to_map [ ("title", VStr "Agent Engine GA"); ("url", VStr "https://acme.example/b");
                ("published_parsed", VTime (utc 2024 1 10 + 3600000000)) ].

Definition entry_ga_bang : entry :=
  list_to_map [ ("title", VStr "Agent Engine GA!"); ("link", VStr "https://acme.example/c");
                ("published", VStr "2024-01-10") ].

Definition entry_untitled : entry :=
  list_to_map [ ("link", VStr "https://acme.example/agent-builder");
                ("published", VStr "2024-01-10") ].

Definition entry_zeta : entry :=
  list_to_map [ ("title", VStr "Zeta agents launch"); ("link", VStr "https://zeta.example/z");
                ("published", VStr "2024-01-10") ].

Definition acme (feeds : list (list entry)) : vendor_cfg :=
  {| v_name := "Acme"; v_audience := "dev"; v_impact := 3; v_risk := 3;
     v_keywords := []; v_feeds := feeds |}.

Definition zeta (feeds : list (list entry)) : vendor_cfg :=
  {| v_name := "Zeta"; v_audience := "dev"; v_impact := 3; v_risk := 3;
     v_keywords := []; v_feeds := feeds |}.

Definition demo_args (path : string) : Scripts.args :=
  {| Scripts.infile := path; Scripts.days := 30; Scripts.top := 60 |}.

Definition demo_wargs : Workflow.args := {| Workflow.days := 30; Workflow.top := 12 |}.

Definition demo_cfg : list vendor_cfg := [acme [[entry_foo; entry_ga]; [entry_ga_again]]].

(** An item of a JSON feed, and a document that holds it. *)
Definition demo_json_item : jdict :=
  [ ("title", JStr "Agent Builder GA"); ("url", JStr "https://acme.example/j");
    ("date_published", JStr "2024-01-11"); ("content_text", JNull) ].

Definition demo_json_feed : json :=
  JObj [("version", JStr "1.1"); ("items", JArr [JObj demo_json_item])].

(** A page with a description that has no content and a first paragraph;
    every URL gives this page. *)
Definition demo_page (url : string) : option page :=
  Some {| meta_description := Some {| attr_content := None; tag_text := "" |};
          first_p := Some {| attr_content := None; tag_text := "Acme ships agents." |} |}.

(** One case split on the head of a computation that may raise. *)
Ltac step_result H :=
  match type of H with
  | bind ?m _ = _ => destruct m eqn:?; cbn [bind] in H
  | (if ?b then _ else _) = _ => destruct b eqn:?
  | match ?x with _ => _ end = _ => destruct x eqn:?
  end.

(** * Properties *)

(** ** Sanity checks of the model *)

Example str_in_ex : str_in "ga" "agent engine ga" = true /\ str_in "ga" "agent" = false.
Proof. split; reflexivity. Qed.

Example classify_scenario : Scripts.classify "Vendor X Agent Engine GA  https://x.com/a" = "launch".
Proof. reflexivity. Qed.

Example safe_id_ex :
  Scripts.safe_id "2024-01-01" "Acme Corp." "  Foo -- Bar!! " = "2024-01-01-acme-corp-foo-bar".
Proof. reflexivity. Qed.

Example strftime_ymd_ex :
  strftime_ymd 0 = "1970-01-01" /\ strftime_ymd (utc 2024 2 29 + 5) = "2024-02-29" /\
  strftime_ymd (utc 2000 12 31 + DAY_US - 1) = "2000-12-31".
Proof. repeat split; vm_compute; reflexivity. Qed.

Example parse_iso_date_ex :
  parse_iso_date "2024-01-10" = Some (utc 2024 1 10) /\
  parse_iso_date "2024-02-30" = None /\ parse_iso_date "soon" = None.
Proof. repeat split; vm_compute; reflexivity. Qed.

Example py_slice_to_ex :
  py_slice_to 2 [1; 2; 3] = [1; 2] /\ py_slice_to 5 [1; 2; 3] = [1; 2; 3] /\
  py_slice_to (-1) [1; 2; 3] = [1; 2] /\ py_slice_to (-5) [1; 2; 3] = [].
Proof. repeat split; reflexivity. Qed.

Example sort_desc_ex :
  sort_desc fst Z.ltb [(1, "a"); (2, "b"); (1, "c"); (2, "d")]
    = [(2, "b"); (2, "d"); (1, "a"); (1, "c")].
Proof. reflexivity. Qed.

(** ** Substrings *)

Lemma prefix_app (k t : string) :
  String.prefix k t = true <-> exists b, t = k +:+ b.
Proof.
  revert t. induction k as [|c k IH]; intros t; simpl.
  - destruct t; split; eauto.
  - destruct t as [|c' t]; simpl.
    + split; [discriminate | intros [b Hb]; discriminate].
    + destruct (ascii_dec c c') as [->|Hne].
      * rewrite IH. split; intros [b Hb]; exists b; [by rewrite Hb | by injection Hb].
      * split; [discriminate | intros [b Hb]; by injection Hb].
Qed.

(** [str_in k t] holds exactly when [t] splits around an occurrence of [k]. *)
Lemma str_in_spec (k t : string) :
  str_in k t = true <-> exists a b, t = a +:+ k +:+ b.
Proof.
  induction t as [|c t IH]; cbn [str_in].
  - rewrite orb_false_r, prefix_app. split.
    + intros [b Hb]. exists "", b. done.
    + intros [a [b Hab]]. destruct a; simpl in Hab; [eauto | discriminate].
  - rewrite orb_true_iff, prefix_app, IH. split.
    + intros [[b Hb] | [a [b Hab]]].
      * exists "", b. done.
      * exists (String c a), b. simpl. by rewrite Hab.
    + intros [a [b Hab]]. destruct a as [|c' a]; simpl in Hab.
      * left. eauto.
      * right. exists a, b. by injection Hab.
Qed.

(** ** The classifier *)

(** [classify] gives the label of the first rule that matches, in the
    order deprecation, pricing, launch, with [upgrade] as the default. *)
Lemma classify_first_match (text : string) :
  Scripts.classify text =
    if mentions_deprecation (lower text) then "deprecation"
    else if mentions_pricing (lower text) then "pricing"
    else if mentions_launch (lower text) then "launch"
    else "upgrade".
Proof. reflexivity. Qed.

Lemma classify_label (text : string) :
  Scripts.classify text ∈ ["deprecation"; "pricing"; "launch"; "upgrade"].
Proof.
  rewrite classify_first_match.
  repeat case_match; set_solver.
Qed.

(** In [classify], a text whose lower-cased form holds both a deprecation
    substring and a pricing substring is a deprecation. *)
Lemma classify_deprecation_first (text a b k : string) :
  k ∈ ["deprecat"; "sunset"] ->
  lower text = a +:+ k +:+ b ->
  Scripts.classify text = "deprecation".
Proof.
  intros Hk Heq. rewrite classify_first_match.
  assert (Hin : str_in k (lower text) = true) by (apply str_in_spec; eauto).
  unfold mentions_deprecation.
  apply list_elem_of_In in Hk. simpl in Hk.
  destruct Hk as [<- | [<- | []]]; rewrite Hin; by rewrite ?orb_true_r.
Qed.

(** The inline classification of the workflow variant lets the last
    matching test win: pricing, then deprecation, then launch. *)
Lemma classify_inline_last_match (text : string) :
  Workflow.classify_inline text =
    if mentions_pricing (lower text) then "pricing"
    else if mentions_deprecation (lower text) then "deprecation"
    else if mentions_launch (lower text) then "launch"
    else "upgrade".
Proof.
  unfold Workflow.classify_inline, mentions_pricing, mentions_deprecation, mentions_launch.
  set (t := lower text).
  destruct (str_in "pricing" t), (str_in "price" t), (str_in "$" t); simpl; try reflexivity.
Qed.

(** C1: the classifier must label a text that mentions both a deprecation
    and a price as a deprecation.  [classify] does; the inline
    classification of the workflow variant labels the text
    "Deprecated pricing tier" as pricing. *)
Theorem classify_inline_deprecated_pricing :
  str_in "deprecat" (lower "Deprecated pricing tier") = true /\
  str_in "pricing" (lower "Deprecated pricing tier") = true /\
  Scripts.classify "Deprecated pricing tier" = "deprecation" /\
  Workflow.classify_inline "Deprecated pricing tier" = "pricing".
Proof. repeat split; reflexivity. Qed.

(** ** The time window *)

Lemma delta_days_exact (now n : Z) : delta_days now (now - n * DAY_US) = n.
Proof.
  unfold delta_days.
  replace (now - (now - n * DAY_US)) with (n * DAY_US) by lia.
  apply Z.div_mul. unfold DAY_US. lia.
Qed.

(** An instant is in the window exactly when fewer than [days + 1] whole
    days have passed since it. *)
Lemma in_window_iff (now d days : Z) :
  in_window now (Some d) days = true <-> now - d < (days + 1) * DAY_US.
Proof.
  unfold in_window, delta_days. rewrite Z.leb_le.
  assert (Hpos : 0 < DAY_US) by (unfold DAY_US; lia).
  pose proof (Z.div_mod (now - d) DAY_US ltac:(lia)) as Hdm.
  pose proof (Z.mod_pos_bound (now - d) DAY_US Hpos) as Hm.
  split; intros Hle; nia.
Qed.

(** C7: an entry dated exactly [days] days before now is in the window, one
    dated exactly [days + 1] days before now is not, and an entry without
    a timestamp never is. *)
Theorem in_window_boundary (now days : Z) :
  in_window now (Some (now - days * DAY_US)) days = true /\
  in_window now (Some (now - (days + 1) * DAY_US)) days = false /\
  in_window now None days = false.
Proof.
  unfold in_window. rewrite !delta_days_exact.
  repeat split; [apply Z.leb_le | apply Z.leb_gt]; lia.
Qed.

(** ** Slugs and identifiers *)

Example slug_spec_ex : slug_spec "  Foo -- Bar!! v2 " = "foo-bar-v2".
Proof. reflexivity. Qed.

Lemma rstrip_dash_cons (c : ascii) (x : string) :
  rstrip_dash (String c x) =
    if String.eqb (rstrip_dash x) "" then
      if Ascii.eqb c dash then "" else String c ""
    else String c (rstrip_dash x).
Proof. simpl. by destruct (rstrip_dash x). Qed.

Lemma alnum_not_dash (c : ascii) : is_alnum_lc c = true -> Ascii.eqb c dash = false.
Proof.
  intros H. destruct (Ascii.eqb_spec c dash) as [->|]; [discriminate H | done].
Qed.

Lemma re_sub_dash_starts_alnum (b : bool) (s : string) :
  starts_alnum s = true -> re_sub_dash b s = re_sub_dash true s.
Proof. destruct s as [|c r]; simpl; [done|]. by intros ->. Qed.

Lemma re_sub_dash_false (s : string) :
  re_sub_dash false s =
    match s with
    | EmptyString => EmptyString
    | String c _ => if is_alnum_lc c then re_sub_dash true s else String dash (re_sub_dash true s)
    end.
Proof. destruct s as [|c r]; simpl; [done|]. by destruct (is_alnum_lc c). Qed.

Lemma re_sub_dash_true_head (s : string) :
  match re_sub_dash true s with
  | String c _ => is_alnum_lc c = true
  | EmptyString => True
  end.
Proof.
  induction s as [|c r IH]; simpl; [done|].
  destruct (is_alnum_lc c) eqn:Hc; done.
Qed.

Lemma lstrip_re_sub_dash (s : string) :
  lstrip_dash (re_sub_dash false s) = re_sub_dash true s.
Proof.
  assert (Hl : forall x, lstrip_dash (re_sub_dash true x) = re_sub_dash true x).
  { intros x. pose proof (re_sub_dash_true_head x) as Hx.
    destruct (re_sub_dash true x) as [|c r]; simpl; [done|].
    by rewrite (alnum_not_dash _ Hx). }
  rewrite re_sub_dash_false. destruct s as [|c r]; [done|].
  destruct (is_alnum_lc c); [apply Hl|].
  change (lstrip_dash (String dash ?x)) with (lstrip_dash x). apply Hl.
Qed.

Lemma alnum_words_nonempty (s : string) : Forall (fun w => w <> "") (alnum_words s).
Proof.
  induction s as [|c r IH]; simpl; [constructor|].
  destruct (is_alnum_lc c); [|done].
  destruct (starts_alnum r).
  - destruct (alnum_words r) as [|w ws]; repeat constructor; try done.
    by inversion IH.
  - by constructor.
Qed.

Lemma join_dash_cons_char (c : ascii) (w : string) (ws : list string) :
  join_dash (String c w :: ws) = String c (join_dash (w :: ws)).
Proof. by destruct ws. Qed.

Lemma join_dash_eq_empty (ws : list string) :
  Forall (fun w => w <> "") ws -> join_dash ws = "" -> ws = [].
Proof.
  intros Hne Hj. destruct ws as [|w ws]; [done|].
  inversion Hne as [|? ? Hw _]; subst.
  destruct w; [done|]. rewrite join_dash_cons_char in Hj. discriminate.
Qed.

Lemma alnum_words_starts (s : string) : starts_alnum s = true -> alnum_words s <> [].
Proof.
  destruct s as [|c r]; simpl; [done|]. intros ->.
  destruct (starts_alnum r); [by destruct (alnum_words r)|done].
Qed.

Lemma rstrip_re_sub_dash (s : string) :
  rstrip_dash (re_sub_dash true s) = join_dash (alnum_words s).
Proof.
  induction s as [|c r IH]; [done|].
  cbn [re_sub_dash alnum_words].
  destruct (is_alnum_lc c) eqn:Hc; [|exact IH].
  rewrite rstrip_dash_cons, (alnum_not_dash _ Hc).
  pose proof (alnum_words_nonempty r) as Hne.
  destruct (starts_alnum r) eqn:Hr.
  - rewrite (re_sub_dash_starts_alnum false r Hr), IH.
    pose proof (alnum_words_starts r Hr) as Hws.
    destruct (alnum_words r) as [|w ws] eqn:Hw; [done|].
    rewrite join_dash_cons_char.
    destruct (String.eqb_spec (join_dash (w :: ws)) "") as [He|]; [|done].
    by apply join_dash_eq_empty in He.
  - rewrite re_sub_dash_false. destruct r as [|c' r']; [done|].
    cbn [starts_alnum] in Hr. rewrite Hr.
    rewrite rstrip_dash_cons, IH. change (Ascii.eqb dash dash) with true.
    set (W := alnum_words (String c' r')) in *. clearbody W.
    destruct (String.eqb_spec (join_dash W) "") as [He|Hn].
    + apply join_dash_eq_empty in He; [|done]. by rewrite He.
    + destruct W as [|w ws]; [done|]. reflexivity.
Qed.

(** The slug computed by the code is the slug of the specification. *)
Lemma slugify_spec (s : string) : slugify s = slug_spec s.
Proof.
  unfold slugify, strip_dash, slug_spec.
  by rewrite lstrip_re_sub_dash, rstrip_re_sub_dash.
Qed.

Lemma str_take_length (n : nat) (s : string) : (String.length (str_take n s) <= n)%nat.
Proof.
  revert s. induction n as [|n IH]; intros [|c r]; simpl; try lia.
  specialize (IH r). lia.
Qed.

Lemma str_take_prefix (n : nat) (s : string) : String.prefix (str_take n s) s = true.
Proof.
  revert s. induction n as [|n IH]; intros [|c r]; simpl; try done.
  destruct (ascii_dec c c); [apply IH | done].
Qed.

(** C4, as stated, fails: [safe_id] caps the slug of the title at 50
    characters but puts the whole slug of the vendor in the id, and the
    workflow variant does not slugify the vendor at all. *)
Lemma safe_id_vendor_not_capped :
  Scripts.safe_id "2024-01-01" sixty_a sixty_a
    = "2024-01-01-" +:+ sixty_a +:+ "-" +:+ str_take 50 sixty_a /\
  String.length (slug_spec sixty_a) = 60%nat /\
  Workflow.item_id "2024-01-01" "Acme Corp." "Agent GA" = "2024-01-01-acme corp.-agent-ga".
Proof. repeat split; reflexivity. Qed.

(** C4 (amended): the id is the date, the vendor part and the title part
    joined by dashes.  The title part is the slug of the title cut to 50
    characters ([safe_id]) or 40 characters (workflow variant); the vendor
    part is the whole slug of the vendor ([safe_id]) or the lower-cased
    vendor name (workflow variant). *)
Theorem safe_id_shape (date_str vendor title : string) :
  Scripts.safe_id date_str vendor title
    = date_str +:+ "-" +:+ slug_spec vendor +:+ "-" +:+ str_take 50 (slug_spec title) /\
  Workflow.item_id date_str vendor title
    = date_str +:+ "-" +:+ lower vendor +:+ "-" +:+ str_take 40 (slug_spec title) /\
  (String.length (str_take 50 (slug_spec title)) <= 50)%nat /\
  (String.length (str_take 40 (slug_spec title)) <= 40)%nat.
Proof.
  unfold Scripts.safe_id, Workflow.item_id. rewrite !slugify_spec.
  repeat split; apply str_take_length.
Qed.

(** ** Timestamp resolution *)

Lemma pick_date_loop_first_some (parse : string -> option Z) (e : entry) (ks : list string) :
  pick_date_loop parse e ks = first_some (map (field_date parse e) ks).
Proof.
  induction ks as [|k ks IH]; [done|].
  cbn [pick_date_loop map first_some]. unfold field_date.
  destruct (py_or (get e k) (get e (k +:+ "_parsed"))) as [|s|t|b]; try done.
  unfold norm_date. simpl. destruct (String.eqb s ""); simpl; [done|].
  by destruct (parse s).
Qed.

Lemma first_some_app {A} (l1 l2 : list (option A)) :
  first_some (l1 ++ l2) =
    match first_some l1 with
    | Some a => Some a
    | None => first_some l2
    end.
Proof. induction l1 as [|[a|] l1 IH]; simpl; done. Qed.

(** C5, as stated, fails: the structured time of a field is not looked at
    when the field itself holds a string, so [entry_tbd] has no timestamp
    in either variant. *)
Lemma pick_date_ignores_parsed :
  pick_date_as_claimed parse_iso_date entry_tbd = Some (utc 2024 1 10) /\
  Scripts.pick_date parse_iso_date entry_tbd = None /\
  Workflow.entry_date parse_iso_date entry_tbd = None.
Proof. repeat split; vm_compute; reflexivity. Qed.

(** C5 (amended): the timestamp is the first success among the fields
    published, updated, date, created, in that order, where each field
    contributes its own value when truthy and the value of its [_parsed]
    companion otherwise, a structured time being taken as it is and a
    string parsed; when all four fail, [date_published] is parsed as the
    last resort (in [pick_date] of the scripts variant when the key is
    present, in the workflow variant by the caller). *)
Theorem pick_date_resolution (parse : string -> option Z) (e : entry) :
  Scripts.pick_date parse e
    = first_some (map (field_date parse e) ["published"; "updated"; "date"; "created"]
                  ++ [if has_key e "date_published"
                      then norm_date parse (get e "date_published") else None]) /\
  Workflow.entry_date parse e
    = first_some (map (field_date parse e) ["published"; "updated"; "date"; "created"]
                  ++ [norm_date parse (get e "date_published")]).
Proof.
  unfold Scripts.pick_date, Workflow.entry_date, Workflow.pick_date.
  rewrite !first_some_app, pick_date_loop_first_some. unfold DATE_FIELDS.
  split; destruct (first_some _); try done; simpl.
  - by destruct (if has_key e "date_published" then _ else _).
  - by destruct (norm_date parse (get e "date_published")).
Qed.

(** ** The stable descending sort *)

Section StableSortFacts.
Context {A K : Type} (key : A -> K) (ltb : K -> K -> bool).

Hypothesis ltb_asym : forall a b, ltb a b = true -> ltb b a = false.
Hypothesis ltb_negtrans : forall a b c, ltb a b = false -> ltb b c = false -> ltb a c = false.

Lemma insert_desc_perm (x : A) (l : list A) : insert_desc key ltb x l ≡ₚ x :: l.
Proof.
  induction l as [|y r IH]; simpl; [done|].
  destruct (ltb (key x) (key y)); [|done].
  rewrite IH. apply Permutation_swap.
Qed.

Lemma sort_desc_perm (l : list A) : sort_desc key ltb l ≡ₚ l.
Proof.
  induction l as [|x r IH]; simpl; [done|].
  by rewrite insert_desc_perm, IH.
Qed.

Lemma insert_desc_sorted (x : A) (l : list A) :
  StronglySorted (desc key ltb) l -> StronglySorted (desc key ltb) (insert_desc key ltb x l).
Proof.
  induction l as [|y r IH]; intros Hs; simpl.
  - repeat constructor.
  - inversion Hs as [|? ? Hr Hy]; subst.
    destruct (ltb (key x) (key y)) eqn:Hxy.
    + constructor; [by apply IH|].
      rewrite insert_desc_perm. constructor; [by apply ltb_asym | done].
    + constructor; [done|]. constructor; [done|].
      eapply Forall_impl; [exact Hy|]. intros z Hz. by eapply ltb_negtrans.
Qed.

Lemma sort_desc_sorted (l : list A) :
  StronglySorted (desc key ltb) (sort_desc key ltb l).
Proof.
  induction l as [|x r IH]; simpl; [constructor | by apply insert_desc_sorted].
Qed.

(** Stability: elements that the order does not separate keep their
    relative order. *)
Lemma filter_insert_desc (P : A -> Prop) `{!forall x, Decision (P x)} (x : A) (l : list A) :
  (forall y, P x -> P y -> ltb (key x) (key y) = false) ->
  filter P (insert_desc key ltb x l) = filter P (x :: l).
Proof.
  intros HP. induction l as [|y r IH]; simpl; [done|].
  destruct (ltb (key x) (key y)) eqn:Hxy; [|done].
  rewrite !filter_cons in *. destruct (decide (P y)) as [Hy|Hy].
  - destruct (decide (P x)) as [Hx|Hx]; [|by rewrite IH].
    rewrite (HP y Hx Hy) in Hxy. discriminate.
  - exact IH.
Qed.

Lemma filter_sort_desc (P : A -> Prop) `{!forall x, Decision (P x)} (l : list A) :
  (forall x y, P x -> P y -> ltb (key x) (key y) = false) ->
  filter P (sort_desc key ltb l) = filter P l.
Proof.
  intros HP. induction l as [|x r IH]; simpl; [done|].
  rewrite filter_insert_desc by (intros y; apply HP).
  by rewrite !filter_cons, IH.
Qed.

End StableSortFacts.

Lemma py_slice_to_prefix {A} (top : Z) (l : list A) : py_slice_to top l `prefix_of` l.
Proof. unfold py_slice_to. destruct (0 <=? top); apply prefix_take. Qed.

Lemma StronglySorted_prefix {A} (R : A -> A -> Prop) (l1 l2 : list A) :
  l1 `prefix_of` l2 -> StronglySorted R l2 -> StronglySorted R l1.
Proof.
  intros [k ->]. induction l1 as [|x l1 IH]; intros Hs; [constructor|].
  inversion Hs as [|? ? Hr Hx]; subst. constructor; [by apply IH|].
  apply Forall_app in Hx. tauto.
Qed.

Lemma filter_prefix {A} (P : A -> Prop) `{!forall x, Decision (P x)} (l1 l2 : list A) :
  l1 `prefix_of` l2 -> filter P l1 `prefix_of` filter P l2.
Proof. intros [k ->]. rewrite filter_app. by eexists. Qed.

(** ** The order on strings *)

Lemma ascii_compare_N (a b : ascii) : Ascii.compare a b = N.compare (N_of_ascii a) (N_of_ascii b).
Proof. reflexivity. Qed.

Lemma string_compare_refl (s : string) : String.compare s s = Eq.
Proof.
  induction s as [|c s IH]; simpl; [done|].
  by rewrite ascii_compare_N, N.compare_refl.
Qed.

Lemma string_compare_lt_trans (a b c : string) :
  String.compare a b = Lt -> String.compare b c = Lt -> String.compare a c = Lt.
Proof.
  revert b c. induction a as [|x a IH]; intros [|y b] [|z c]; simpl; try done.
  rewrite !ascii_compare_N.
  destruct (N.compare_spec (N_of_ascii x) (N_of_ascii y)) as [Hxy|Hxy|Hxy]; try done;
  destruct (N.compare_spec (N_of_ascii y) (N_of_ascii z)) as [Hyz|Hyz|Hyz]; try done;
  destruct (N.compare_spec (N_of_ascii x) (N_of_ascii z)) as [Hxz|Hxz|Hxz]; try done;
  try lia; intros; by eapply IH.
Qed.

Lemma string_ltb_asym (a b : string) : String.ltb a b = true -> String.ltb b a = false.
Proof.
  unfold String.ltb. rewrite (String.compare_antisym b a).
  by destruct (String.compare a b).
Qed.

Lemma string_ltb_negtrans (a b c : string) :
  String.ltb a b = false -> String.ltb b c = false -> String.ltb a c = false.
Proof.
  unfold String.ltb. intros Hab Hbc.
  destruct (String.compare a c) eqn:Hac; try done.
  destruct (String.compare a b) eqn:Hab'; try done;
  destruct (String.compare b c) eqn:Hbc'; try done.
  - apply String.compare_eq_iff in Hab', Hbc'. subst.
    by rewrite string_compare_refl in Hac.
  - apply String.compare_eq_iff in Hab'. subst. congruence.
  - apply String.compare_eq_iff in Hbc'. subst. congruence.
  - assert (String.compare c a = Lt) as Hca.
    { apply (string_compare_lt_trans c b a).
      - rewrite String.compare_antisym, Hbc'. done.
      - rewrite String.compare_antisym, Hab'. done. }
    rewrite String.compare_antisym, Hca in Hac. done.
Qed.

Lemma string_ltb_irrefl (a : string) : String.ltb a a = false.
Proof. unfold String.ltb. by rewrite string_compare_refl. Qed.

Lemma string_ltb_false_leb (a b : string) : String.ltb a b = false <-> String.leb b a = true.
Proof.
  unfold String.ltb, String.leb. rewrite (String.compare_antisym a b).
  destruct (String.compare b a); simpl; split; done.
Qed.

Lemma pair_ltb_asym (a b : string * string) : pair_ltb a b = true -> pair_ltb b a = false.
Proof.
  unfold pair_ltb. destruct a as [a1 a2], b as [b1 b2]; simpl.
  intros H. apply orb_true_iff in H. apply orb_false_iff.
  destruct H as [H|H].
  - split; [by apply string_ltb_asym|].
    destruct (String.eqb_spec b1 a1) as [->|]; [|done].
    by rewrite string_ltb_irrefl in H.
  - apply andb_true_iff in H as [H1 H2]. apply String.eqb_eq in H1 as ->.
    rewrite string_ltb_irrefl, String.eqb_refl. simpl. split; [done | by apply string_ltb_asym].
Qed.

Lemma pair_ltb_negtrans (a b c : string * string) :
  pair_ltb a b = false -> pair_ltb b c = false -> pair_ltb a c = false.
Proof.
  unfold pair_ltb. destruct a as [a1 a2], b as [b1 b2], c as [c1 c2]; simpl.
  rewrite !orb_false_iff. intros [Hab1 Hab2] [Hbc1 Hbc2].
  split; [by eapply string_ltb_negtrans|].
  destruct (String.eqb_spec a1 c1) as [->|]; [simpl|done].
  destruct (String.eqb_spec c1 b1) as [->|Hne]; simpl in *.
  - rewrite String.eqb_refl in Hbc2. simpl in *. by eapply string_ltb_negtrans.
  - exfalso. apply Hne. apply String.leb_antisym; by apply string_ltb_false_leb.
Qed.

Lemma pair_ltb_false_fst (a b : string * string) :
  pair_ltb a b = false -> String.ltb (fst a) (fst b) = false.
Proof. unfold pair_ltb. rewrite orb_false_iff. tauto. Qed.

(** ** Loops *)

Lemma foldM_ind {A B} (R : A -> A -> Prop) (f : A -> B -> result A) :
  (forall a, R a a) ->
  (forall a b c, R a b -> R b c -> R a c) ->
  (forall a x a', f a x = Ok a' -> R a a') ->
  forall l a a', foldM f l a = Ok a' -> R a a'.
Proof.
  intros Hrefl Htrans Hstep l. induction l as [|x l IH]; intros a a' H; simpl in H.
  - injection H as <-. apply Hrefl.
  - destruct (f a x) as [b|] eqn:Hf; simpl in H; [|done].
    eapply Htrans; [by eapply Hstep | by apply IH].
Qed.

(** ** The incremental variant *)

Lemma extends_refl (st : Scripts.state) : extends st st.
Proof.
  exists []. simpl. rewrite app_nil_r.
  repeat split; [set_solver | constructor | set_solver | constructor].
Qed.

Lemma extends_ticks (st : Scripts.state) (n : nat) :
  extends st {| Scripts.merged := Scripts.merged st; Scripts.seen := Scripts.seen st; Scripts.ticks := n |}.
Proof.
  exists []. simpl. rewrite app_nil_r.
  repeat split; [set_solver | constructor | set_solver | constructor].
Qed.

Lemma extends_trans (a b c : Scripts.state) : extends a b -> extends b c -> extends a c.
Proof.
  intros (n1 & Hm1 & Hs1 & Hd1 & Hf1 & Hb1) (n2 & Hm2 & Hs2 & Hd2 & Hf2 & Hb2).
  exists (n1 ++ n2). rewrite !map_app.
  repeat split.
  - by rewrite Hm2, Hm1, <- app_assoc.
  - rewrite Hs2, Hs1, list_to_set_app_L. set_solver.
  - apply NoDup_app. repeat split; [done | | done].
    intros x Hx1 Hx2. apply list_elem_of_fmap in Hx2 as (it & -> & Hit).
    apply Hf2 in Hit. rewrite Hs1 in Hit. set_solver.
  - intros it Hit. apply elem_of_app in Hit as [Hit|Hit]; [by apply Hf1|].
    apply Hf2 in Hit. rewrite Hs1 in Hit. set_solver.
  - by apply Forall_app.
Qed.

Section ScriptsFacts.
Variable parse : string -> option Z.
Variable html_summary : string -> string.
Variable clock : nat -> Z.
Variable fs : string -> file.

Lemma process_entry_extends (days : Z) (v : vendor_cfg) (st st' : Scripts.state) (e : entry) :
  Scripts.process_entry parse html_summary clock days v st e = Ok st' -> extends st st'.
Proof.
  unfold Scripts.process_entry. intros H. cbv zeta in H.
  repeat (step_result H; try discriminate);
    injection H as <-; try apply extends_refl; try apply extends_ticks.
  match goal with
  | |- extends _ {| Scripts.merged := _ ++ [item_json ?it] |} => exists [it]
  end.
  simpl. repeat split.
  - set_solver.
  - apply NoDup_singleton.
  - intros it Hit. apply list_elem_of_singleton in Hit as ->. simpl.
    match goal with
    | Hd : bool_decide _ = false |- _ => by apply bool_decide_eq_false in Hd
    end.
  - repeat constructor. eexists. reflexivity.
Qed.

Lemma process_vendor_extends (days : Z) (st st' : Scripts.state) (v : vendor_cfg) :
  Scripts.process_vendor parse html_summary clock days st v = Ok st' -> extends st st'.
Proof.
  apply foldM_ind; [apply extends_refl | apply extends_trans |].
  intros a entries a'. apply foldM_ind; [apply extends_refl | apply extends_trans |].
  intros b e b'. apply process_entry_extends.
Qed.

Lemma accumulate_extends (a : Scripts.args) (cfg : list vendor_cfg) (l : list jdict) :
  Scripts.accumulate parse html_summary clock fs a cfg = Ok l ->
  exists st0 st,
    Scripts.init_state fs (Scripts.infile a) = Ok st0 /\
    extends st0 st /\ l = Scripts.merged st.
Proof.
  unfold Scripts.accumulate, bind. intros H.
  destruct (Scripts.init_state fs (Scripts.infile a)) as [st0|] eqn:H0; [|done].
  destruct (foldM _ cfg st0) as [st|] eqn:Hf; [|done].
  injection H as <-. exists st0, st. repeat split.
  revert Hf. apply foldM_ind; [apply extends_refl | apply extends_trans |].
  intros x v x'. apply process_vendor_extends.
Qed.

End ScriptsFacts.

Lemma id_key_item_json (it : Item) : Scripts.id_key (item_json it) = JStr (id it).
Proof.
  unfold Scripts.id_key, jor, jget. simpl.
  destruct (String.eqb_spec (id it) "") as [->|]; done.
Qed.

Lemma key_date_item_json (it : Item) : Scripts.key_date (item_json it) = JStr (date it).
Proof.
  unfold Scripts.key_date, jor, jget. simpl.
  destruct (String.eqb_spec (date it) "") as [->|]; done.
Qed.

Lemma init_state_seen (fs : string -> file) (path : string) (st0 : Scripts.state) :
  Scripts.init_state fs path = Ok st0 ->
  forall s, s ∈ Scripts.seen st0 <-> JStr s ∈ map Scripts.id_key (Scripts.merged st0).
Proof.
  unfold Scripts.init_state. intros H. cbv zeta in H.
  repeat (step_result H; try discriminate). injection H as <-. simpl.
  intros s. rewrite elem_of_list_to_set, list_elem_of_omap, list_elem_of_fmap.
  split.
  - intros (it & Hit & Hs). exists it. split; [|done].
    destruct (Scripts.id_key it); simpl in Hs; congruence.
  - intros (it & Hs & Hit). exists it. split; [done|]. by rewrite <- Hs.
Qed.

Lemma prefix_sublist {A} (l1 l2 : list A) : l1 `prefix_of` l2 -> l1 `sublist_of` l2.
Proof. intros [k ->]. by apply sublist_inserts_r. Qed.

Lemma filter_sublist_mono {A} (P : A -> Prop) `{!forall x, Decision (P x)} (l1 l2 : list A) :
  l1 `sublist_of` l2 -> filter P l1 `sublist_of` filter P l2.
Proof.
  induction 1 as [|x l1 l2 _ IH|x l1 l2 _ IH]; [done| |];
    rewrite ?filter_cons; destruct (decide (P x));
    auto using sublist_skip, sublist_cons.
Qed.

Lemma StronglySorted_sublist {A} (R : A -> A -> Prop) (l1 l2 : list A) :
  l1 `sublist_of` l2 -> StronglySorted R l2 -> StronglySorted R l1.
Proof.
  induction 1 as [|x l1 l2 Hsub IH|x l1 l2 Hsub IH]; intros Hs; [done| |];
    inversion Hs as [|? ? Hr Hx]; subst; [|by apply IH].
  constructor; [by apply IH|].
  apply Forall_forall. intros y Hy. rewrite Forall_forall in Hx.
  apply Hx. by eapply elem_of_sublist.
Qed.

Section ScriptsTheorems.
Variable parse : string -> option Z.
Variable html_summary : string -> string.
Variable clock : nat -> Z.
Variable fs : string -> file.

Lemma main_inv (a : Scripts.args) (cfg : list vendor_cfg) (out : list jdict) :
  Scripts.main parse html_summary clock fs a cfg = Ok out ->
  exists st0 news,
    Scripts.init_state fs (Scripts.infile a) = Ok st0 /\
    Scripts.accumulate parse html_summary clock fs a cfg
      = Ok (Scripts.merged st0 ++ map item_json news) /\
    NoDup (map id news) /\
    (forall it, it ∈ news -> id it ∉ Scripts.seen st0) /\
    Forall single_source news /\
    Forall (fun it => Scripts.key_date it = JStr (Scripts.date_of it))
      (Scripts.merged st0 ++ map item_json news) /\
    out = py_slice_to (Scripts.top a)
            (sort_desc Scripts.date_of String.ltb (Scripts.merged st0 ++ map item_json news)).
Proof.
  unfold Scripts.main, bind. intros H.
  destruct (Scripts.accumulate _ _ _ _ a cfg) as [l|] eqn:Hacc; [|done].
  destruct (accumulate_extends _ _ _ _ _ _ _ Hacc)
    as (st0 & st & Hinit & (news & Hm & Hs & Hd & Hf & Hb) & ->).
  unfold Scripts.sort_and_cut in H.
  destruct (forallb _ _) eqn:Hkeys; [|done]. injection H as <-.
  exists st0, news. rewrite Hm in *. repeat split; try done.
  apply Forall_forall. intros it Hit.
  rewrite forallb_forall in Hkeys. apply list_elem_of_In, Hkeys in Hit.
  apply bool_decide_eq_true in Hit as [s Hs']. unfold Scripts.date_of.
  destruct (Scripts.key_date it); simpl in *; congruence.
Qed.

Lemma fresh_ids_distinct (st0 : Scripts.state) (news : list Item) :
  (forall s, s ∈ Scripts.seen st0 <-> JStr s ∈ map Scripts.id_key (Scripts.merged st0)) ->
  NoDup (map Scripts.id_key (Scripts.merged st0)) ->
  NoDup (map id news) ->
  (forall it, it ∈ news -> id it ∉ Scripts.seen st0) ->
  NoDup (map Scripts.id_key (Scripts.merged st0 ++ map item_json news)).
Proof.
  intros Hseen Hprior Hnews Hfresh.
  rewrite map_app, map_map.
  rewrite (map_ext _ (fun it => JStr (id it))) by apply id_key_item_json.
  apply NoDup_app. repeat split; [done | |].
  - intros x Hx Hx'. apply list_elem_of_fmap in Hx' as (it & -> & Hit).
    apply (Hfresh it Hit). by apply Hseen.
  - rewrite <- (map_map id JStr).
    assert (Inj (=) (=) JStr) by (intros s1 s2 Heq; by injection Heq).
    by apply (NoDup_fmap_2 JStr).
Qed.

End ScriptsTheorems.

(** ** The stateless variant *)

Lemma grows_refl (st : Workflow.state) : grows st st.
Proof. exists []. by rewrite app_nil_r. Qed.

Lemma grows_trans (a b c : Workflow.state) : grows a b -> grows b c -> grows a c.
Proof.
  intros (n1 & H1 & F1) (n2 & H2 & F2). exists (n1 ++ n2).
  split; [by rewrite H2, H1, <- app_assoc | by apply Forall_app].
Qed.

Section WorkflowFacts.
Variable parse : string -> option Z.
Variable html_summary : string -> string.
Variable clock : nat -> Z.

Lemma wf_process_entry_grows (days : Z) (v : vendor_cfg) (st st' : Workflow.state) (e : entry) :
  Workflow.process_entry parse html_summary clock days v st e = Ok st' -> grows st st'.
Proof.
  unfold Workflow.process_entry. intros H. cbv zeta in H.
  repeat (step_result H; try discriminate);
    injection H as <-; try apply grows_refl; try (exists []; by rewrite app_nil_r).
  eexists [_]. split; [reflexivity|]. repeat constructor. eexists. reflexivity.
Qed.

Lemma collect_single_source (a : Workflow.args) (cfg : list vendor_cfg) (l : list Item) :
  Workflow.collect parse html_summary clock a cfg = Ok l -> Forall single_source l.
Proof.
  unfold Workflow.collect, bind. intros H.
  destruct (foldM _ cfg _) as [st|] eqn:Hf; [|done]. injection H as <-.
  assert (Hg : grows {| Workflow.items := []; Workflow.ticks := 0 |} st).
  { revert Hf. apply foldM_ind; [apply grows_refl | apply grows_trans |].
    intros x v x'. apply foldM_ind; [apply grows_refl | apply grows_trans |].
    intros y es y'. apply foldM_ind; [apply grows_refl | apply grows_trans |].
    intros z e z'. apply wf_process_entry_grows. }
  destruct Hg as (news & -> & Hn). done.
Qed.

End WorkflowFacts.

Lemma dedup_loop_sublist (seen : gset (string * string)) (l : list Item) :
  Workflow.dedup_loop seen l `sublist_of` l.
Proof.
  revert seen. induction l as [|it r IH]; intros seen; simpl; [done|].
  destruct (bool_decide _); [apply sublist_cons | apply sublist_skip]; apply IH.
Qed.

Lemma dedup_loop_fresh (seen : gset (string * string)) (l : list Item) (it : Item) :
  it ∈ Workflow.dedup_loop seen l -> dedup_key it ∉ seen.
Proof.
  revert seen. induction l as [|x r IH]; intros seen; simpl; [by intros ?%elem_of_nil|].
  destruct (bool_decide _) eqn:Hd; [apply IH|].
  apply bool_decide_eq_false in Hd.
  intros [->|Hit]%elem_of_cons; [done|].
  apply IH in Hit. set_solver.
Qed.

Lemma dedup_loop_NoDup (seen : gset (string * string)) (l : list Item) :
  NoDup (map dedup_key (Workflow.dedup_loop seen l)).
Proof.
  revert seen. induction l as [|x r IH]; intros seen; simpl; [constructor|].
  destruct (bool_decide _); [apply IH|].
  simpl. constructor; [|apply IH].
  intros (it & Hk & Hit)%list_elem_of_fmap.
  apply dedup_loop_fresh in Hit. apply Hit.
  apply elem_of_union_l, elem_of_singleton. by rewrite <- Hk.
Qed.

Lemma rank_sublist (top : Z) (l : list Item) :
  Workflow.rank top l `sublist_of` sort_desc Workflow.sort_key pair_ltb l.
Proof.
  unfold Workflow.rank. etransitivity; [|apply dedup_loop_sublist].
  apply prefix_sublist, py_slice_to_prefix.
Qed.

(** ** Example runs *)

(** ** Distinct ids *)

(** C2, as stated, fails in both variants: the workflow variant removes
    duplicates by vendor and name, so two titles with one slug give two
    items with one id; and the scripts variant carries over a prior
    snapshot as it is, with the ids it repeats. *)
Lemma output_shares_id :
  (exists a b, Workflow.main parse_iso_date demo_html demo_clock demo_wargs
                 [acme [[entry_ga; entry_ga_bang]]] = Ok [a; b] /\
               id a = id b /\ name a <> name b) /\
  (exists a b c, Scripts.main parse_iso_date demo_html demo_clock demo_fs
                   (demo_args "data/twice.json") demo_cfg = Ok [a; b; c] /\
                 Scripts.id_key b = Scripts.id_key c).
Proof.
  split.
  - do 2 eexists. split; [vm_compute; reflexivity|]. split; [reflexivity | discriminate].
  - do 3 eexists. split; [vm_compute; reflexivity | reflexivity].
Qed.

(** C2 (amended): in the scripts variant, when no two items of the loaded
    prior snapshot share an id, no two items of the output share an id;
    in the workflow variant no two items of the output share both vendor
    and name. *)
Theorem output_ids_distinct
    (parse : string -> option Z) (html_summary : string -> string) (clock : nat -> Z)
    (fs : string -> file) (cfg : list vendor_cfg) :
  (forall a st0 out,
     Scripts.init_state fs (Scripts.infile a) = Ok st0 ->
     NoDup (map Scripts.id_key (Scripts.merged st0)) ->
     Scripts.main parse html_summary clock fs a cfg = Ok out ->
     NoDup (map Scripts.id_key out)) /\
  (forall a out,
     Workflow.main parse html_summary clock a cfg = Ok out ->
     NoDup (map dedup_key out)).
Proof.
  split.
  - intros a st0 out Hinit Hprior Hmain.
    destruct (main_inv _ _ _ _ _ _ _ Hmain)
      as (st0' & news & Hinit' & _ & Hd & Hf & _ & _ & ->).
    assert (st0' = st0) as -> by congruence.
    eapply sublist_NoDup;
      [|apply (fmap_sublist Scripts.id_key), prefix_sublist, py_slice_to_prefix].
    rewrite sort_desc_perm.
    eapply fresh_ids_distinct; eauto using init_state_seen.
  - intros a out Hmain. unfold Workflow.main, bind in Hmain.
    destruct (Workflow.collect _ _ _ a cfg) as [l|]; [|done]. injection Hmain as <-.
    eapply sublist_NoDup; [apply dedup_loop_NoDup|].
    apply (fmap_sublist dedup_key), prefix_sublist, py_slice_to_prefix.
Qed.

Lemma output_ids_distinct_witness :
  (exists out, Scripts.main parse_iso_date demo_html demo_clock demo_fs
                 (demo_args "data/agent-radar.json") demo_cfg = Ok out /\
               length out = 2%nat /\ NoDup (map Scripts.id_key out)) /\
  (exists out, Workflow.main parse_iso_date demo_html demo_clock demo_wargs demo_cfg = Ok out /\
               length out = 2%nat /\ NoDup (map dedup_key out)).
Proof.
  destruct (output_ids_distinct parse_iso_date demo_html demo_clock demo_fs demo_cfg)
    as [Hs Hw].
  split; eexists; (split; [vm_compute; reflexivity|]); (split; [reflexivity|]).
  - eapply (Hs (demo_args "data/agent-radar.json")).
    + reflexivity.
    + apply NoDup_singleton.
    + vm_compute; reflexivity.
  - eapply (Hw demo_wargs). vm_compute; reflexivity.
Defined.

(** ** Order of the output *)

Lemma StronglySorted_impl {A} (R1 R2 : A -> A -> Prop) (l : list A) :
  (forall x y, R1 x y -> R2 x y) -> StronglySorted R1 l -> StronglySorted R2 l.
Proof.
  intros HR. induction 1 as [|x l _ IH Hx]; constructor; [done|].
  eapply Forall_impl; [exact Hx | apply HR].
Qed.

(** C3, as stated, fails in the workflow variant: it sorts by the pair
    (date, vendor), so two items of one date stand in descending order of
    their vendors, against the order in which they were met. *)
Lemma workflow_ties_by_vendor :
  exists a z,
    Workflow.collect parse_iso_date demo_html demo_clock demo_wargs
      [acme [[entry_ga]]; zeta [[entry_zeta]]] = Ok [a; z] /\
    Workflow.main parse_iso_date demo_html demo_clock demo_wargs
      [acme [[entry_ga]]; zeta [[entry_zeta]]] = Ok [z; a] /\
    date a = date z /\ vendor a = "Acme" /\ vendor z = "Zeta".
Proof.
  do 2 eexists. split; [vm_compute; reflexivity|].
  split; [vm_compute; reflexivity|]. repeat split.
Qed.

(** C3 (amended): every output is in non-increasing order of the date.  In
    the scripts variant the items of one date keep the order of the merged
    list (prior items first, then new items as they were met).  In the
    workflow variant the items of one date stand in non-increasing order
    of the vendor, and the items of one date and vendor keep the order in
    which they were met. *)
Theorem output_sorted_by_date
    (parse : string -> option Z) (html_summary : string -> string) (clock : nat -> Z)
    (fs : string -> file) (cfg : list vendor_cfg) :
  (forall a out,
     Scripts.main parse html_summary clock fs a cfg = Ok out ->
     exists l,
       Scripts.accumulate parse html_summary clock fs a cfg = Ok l /\
       Forall (fun it => Scripts.key_date it = JStr (Scripts.date_of it)) out /\
       StronglySorted (fun x y => String.leb (Scripts.date_of y) (Scripts.date_of x) = true) out /\
       forall d, filter (fun it => Scripts.date_of it = d) out
                   `prefix_of` filter (fun it => Scripts.date_of it = d) l) /\
  (forall a out,
     Workflow.main parse html_summary clock a cfg = Ok out ->
     exists l,
       Workflow.collect parse html_summary clock a cfg = Ok l /\
       StronglySorted (fun x y => String.leb (date y) (date x) = true) out /\
       StronglySorted (fun x y => date x = date y -> String.leb (vendor y) (vendor x) = true) out /\
       forall k, filter (fun it => Workflow.sort_key it = k) out
                   `sublist_of` filter (fun it => Workflow.sort_key it = k) l).
Proof.
  split.
  - intros a out Hmain.
    destruct (main_inv _ _ _ _ _ _ _ Hmain)
      as (st0 & news & _ & Hacc & _ & _ & _ & Hkeys & ->).
    eexists. split; [exact Hacc|].
    pose proof (py_slice_to_prefix (Scripts.top a)
      (sort_desc Scripts.date_of String.ltb (Scripts.merged st0 ++ map item_json news))) as Hpre.
    repeat split.
    + apply Forall_forall. intros it Hit. rewrite Forall_forall in Hkeys. apply Hkeys.
      rewrite <- (sort_desc_perm Scripts.date_of String.ltb).
      eapply elem_of_sublist; [exact Hit | by apply prefix_sublist].
    + eapply StronglySorted_prefix; [exact Hpre|].
      eapply StronglySorted_impl;
        [|apply sort_desc_sorted; [apply string_ltb_asym | apply string_ltb_negtrans]].
      intros x y. apply string_ltb_false_leb.
    + intros d. rewrite <- (filter_sort_desc Scripts.date_of String.ltb
                              (fun it => Scripts.date_of it = d)
                              (Scripts.merged st0 ++ map item_json news)).
      * by apply filter_prefix.
      * intros x y -> ->. apply string_ltb_irrefl.
  - intros a out Hmain. unfold Workflow.main, bind in Hmain.
    destruct (Workflow.collect _ _ _ a cfg) as [l|]; [|done]. injection Hmain as <-.
    exists l. split; [done|].
    pose proof (rank_sublist (Workflow.top a) l) as Hsub.
    assert (Hs : StronglySorted (desc Workflow.sort_key pair_ltb) (Workflow.rank (Workflow.top a) l)).
    { eapply StronglySorted_sublist; [exact Hsub|].
      apply sort_desc_sorted; [apply pair_ltb_asym | apply pair_ltb_negtrans]. }
    repeat split.
    + eapply StronglySorted_impl; [|exact Hs].
      intros x y Hxy. apply string_ltb_false_leb. by apply pair_ltb_false_fst in Hxy.
    + eapply StronglySorted_impl; [|exact Hs].
      intros x y Hxy Heq. apply string_ltb_false_leb.
      unfold desc, pair_ltb, Workflow.sort_key in Hxy. simpl in Hxy.
      apply orb_false_iff in Hxy as [_ Hxy]. rewrite Heq, String.eqb_refl in Hxy.
      exact Hxy.
    + intros k. rewrite <- (filter_sort_desc Workflow.sort_key pair_ltb
                              (fun it => Workflow.sort_key it = k) l).
      * by apply filter_sublist_mono.
      * intros x y -> <-. destruct (pair_ltb _ _) eqn:Hlt; [|done].
        pose proof (pair_ltb_asym _ _ Hlt). congruence.
Qed.

Lemma output_sorted_by_date_witness :
  (exists out, Scripts.main parse_iso_date demo_html demo_clock demo_fs
                 (demo_args "data/agent-radar.json") demo_cfg = Ok out /\
               length out = 2%nat /\
               StronglySorted (fun x y => String.leb (Scripts.date_of y) (Scripts.date_of x) = true) out) /\
  (exists out, Workflow.main parse_iso_date demo_html demo_clock demo_wargs demo_cfg = Ok out /\
               length out = 2%nat /\
               StronglySorted (fun x y => String.leb (date y) (date x) = true) out).
Proof.
  destruct (output_sorted_by_date parse_iso_date demo_html demo_clock demo_fs demo_cfg)
    as [Hs Hw].
  split; eexists; (split; [vm_compute; reflexivity|]); (split; [reflexivity|]).
  - edestruct (Hs (demo_args "data/agent-radar.json")) as (l & _ & _ & Hsorted & _);
      [vm_compute; reflexivity | exact Hsorted].
  - edestruct (Hw demo_wargs) as (l & _ & Hsorted & _);
      [vm_compute; reflexivity | exact Hsorted].
Defined.

(** ** Incremental merge *)

Lemma py_slice_to_all {A} (top : Z) (l : list A) :
  Z.of_nat (length l) <= top -> py_slice_to top l = l.
Proof.
  intros Hle. unfold py_slice_to.
  destruct (0 <=? top) eqn:Htop; [|apply Z.leb_gt in Htop; lia].
  apply take_ge. lia.
Qed.

(** ** Normalization *)

Lemma entry_title_falsy (e : entry) : truthy (entry_title e) = false -> entry_title e = VStr "".
Proof.
  unfold entry_title. generalize (py_or (get e "title") (get e "heading")).
  intros x. unfold py_or. destruct (truthy x) eqn:Hx; [|done].
  intros Hf. rewrite Hf in Hx. discriminate.
Qed.

(** C8, as stated, fails in the scripts variant: [entry_untitled] has a
    link, is dated inside the window and matches a keyword through its
    link; the workflow variant makes an item with the empty name of it, but
    the scripts variant drops it for its missing title. *)
Lemma scripts_rejects_untitled :
  entry_link entry_untitled = VStr "https://acme.example/agent-builder" /\
  entry_title entry_untitled = VStr "" /\
  Scripts.main parse_iso_date demo_html demo_clock demo_fs (demo_args "")
    [acme [[entry_untitled]]] = Ok [] /\
  exists it, Workflow.main parse_iso_date demo_html demo_clock demo_wargs
               [acme [[entry_untitled]]] = Ok [it] /\ name it = "".
Proof.
  split; [vm_compute; reflexivity|]. split; [vm_compute; reflexivity|].
  split; [vm_compute; reflexivity|].
  eexists. split; [vm_compute; reflexivity | reflexivity].
Qed.

(** C8 (amended): the workflow variant rejects an entry at normalization
    only when neither its link nor its url field is truthy; an entry with a
    link and no title is given the empty title, and yields an item with the
    empty name when it passes the window and keyword filters.  The scripts
    variant rejects an entry when it has no link or no title. *)
Theorem normalization_rejects
    (parse : string -> option Z) (html_summary : string -> string) (clock : nat -> Z)
    (days : Z) (v : vendor_cfg) :
  (forall st e,
     truthy (entry_link e) = false ->
     Workflow.process_entry parse html_summary clock days v st e = Ok st) /\
  (forall st e link dt desc summ,
     entry_link e = VStr link -> link <> "" ->
     truthy (entry_title e) = false ->
     Workflow.entry_date parse e = Some dt ->
     in_window (clock (Workflow.ticks st)) (Some dt) days = true ->
     format_value (py_or (get e "summary") (get_default e "content" (VStr ""))) = Ok desc ->
     match_kw (" " +:+ desc +:+ " " +:+ link) (Workflow.KEYS ++ v_keywords v) = true ->
     as_str (py_or (py_or (get e "summary") (get e "content_text")) (VStr "")) = Ok summ ->
     exists it,
       Workflow.process_entry parse html_summary clock days v st e
         = Ok {| Workflow.items := Workflow.items st ++ [it];
                 Workflow.ticks := S (Workflow.ticks st) |} /\
       name it = "" /\ date it = strftime_ymd dt /\
       sources it = [(v_name v +:+ " source", link)]) /\
  (forall st e,
     truthy (entry_link e) = false \/ truthy (entry_title e) = false ->
     Scripts.process_entry parse html_summary clock days v st e = Ok st).
Proof.
  repeat split.
  - intros st e Hl. unfold Workflow.process_entry. cbv zeta. by rewrite Hl.
  - intros st e link dt desc summ Hlink Hne Htitle Hdate Hwin Hdesc Hkw Hsumm.
    apply entry_title_falsy in Htitle.
    unfold Workflow.process_entry. cbv zeta.
    apply String.eqb_neq in Hne.
    rewrite Hlink, Htitle, Hdate. cbn [truthy]. rewrite Hne. cbn [negb].
    rewrite Hwin, Hdesc. cbn [negb bind format_value].
    change ("" +:+ " " +:+ desc +:+ " " +:+ link) with (" " +:+ desc +:+ " " +:+ link).
    rewrite Hkw, Hsumm. cbn [negb bind].
    eexists. split; [reflexivity|]. by repeat split.
  - intros st e [Hl|Ht]; unfold Scripts.process_entry; cbv zeta.
    + by rewrite Hl.
    + rewrite Ht. by rewrite orb_true_r.
Qed.

Lemma normalization_rejects_witness :
  exists it,
    Workflow.process_entry parse_iso_date demo_html demo_clock 30 (acme [[entry_untitled]])
      {| Workflow.items := []; Workflow.ticks := 0 |} entry_untitled
      = Ok {| Workflow.items := [it]; Workflow.ticks := 1 |} /\
    name it = "" /\ date it = "2024-01-10" /\
    sources it = [("Acme source", "https://acme.example/agent-builder")].
Proof.
  destruct (normalization_rejects parse_iso_date demo_html demo_clock 30
              (acme [[entry_untitled]])) as (_ & Hw & _).
  destruct (Hw {| Workflow.items := []; Workflow.ticks := 0 |} entry_untitled
              "https://acme.example/agent-builder" (utc 2024 1 10) "" "")
    as (it & Hstep & Hname & Hdate & Hsrc);
    try (vm_compute; reflexivity); [discriminate|].
  exists it. repeat split; assumption.
Defined.

(** ** Loading the prior snapshot *)

(** Where [load_existing] gives the empty history: no path, no file, a file
    that cannot be read or parsed, a JSON value that is neither list nor
    object, and an object without [items]. *)
Lemma load_existing_empty (fs : string -> file) (path : string) :
  path = "" \/ fs path = Missing \/ fs path = Unreadable \/ fs path = Content None \/
  (exists j, fs path = Content (Some j) /\
             match j with
             | JArr _ => False
             | JObj o => dict_get "items" o = None
             | _ => True
             end) ->
  Scripts.load_existing fs path = JArr [].
Proof.
  unfold Scripts.load_existing.
  intros [->|H]; [done|]. destruct (String.eqb path ""); [done|].
  destruct H as [->|[->|[->|(j & -> & Hj)]]]; try done.
  destruct j; try done. by rewrite Hj.
Qed.

(** A list is returned as it is, and so is whatever an object holds under
    [items]. *)
Lemma load_existing_content (fs : string -> file) (path : string) (j : json) :
  path <> "" -> fs path = Content (Some j) ->
  Scripts.load_existing fs path =
    match j with
    | JArr _ => j
    | JObj o => default (JArr []) (dict_get "items" o)
    | _ => JArr []
    end.
Proof.
  intros Hp Hfs. unfold Scripts.load_existing.
  apply String.eqb_neq in Hp. by rewrite Hp, Hfs.
Qed.

(** C9: a snapshot file that holds an object whose [items] is no list must
    count as empty history.  For the file [{"items": 5}] the loader returns
    the number, and the run stops with a [TypeError] when [main] iterates
    over it. *)
Theorem load_existing_items_not_a_list :
  demo_fs "data/number.json" = Content (Some (JObj [("items", JNum 5)])) /\
  Scripts.load_existing demo_fs "data/number.json" = JNum 5 /\
  Scripts.init_state demo_fs "data/number.json" = Raise TypeError /\
  Scripts.main parse_iso_date demo_html demo_clock demo_fs
    (demo_args "data/number.json") demo_cfg = Raise TypeError.
Proof. repeat split; vm_compute; reflexivity. Qed.

(** ** Sources of an item *)

Section StepFacts.
Variable parse : string -> option Z.
Variable html_summary : string -> string.
Variable clock : nat -> Z.

Lemma process_entry_step (days : Z) (v : vendor_cfg) (st st' : Scripts.state) (e : entry) :
  Scripts.process_entry parse html_summary clock days v st e = Ok st' ->
  (Scripts.merged st' = Scripts.merged st /\ Scripts.seen st' = Scripts.seen st) \/
  (exists it,
     Scripts.merged st' = Scripts.merged st ++ [item_json it] /\
     Scripts.seen st' = ({[id it]} ∪ Scripts.seen st) /\
     (id it ∉ Scripts.seen st) /\ single_source it).
Proof.
  unfold Scripts.process_entry. intros H. cbv zeta in H.
  repeat (step_result H; try discriminate); injection H as <-; auto.
  right. eexists. simpl. repeat split.
  - match goal with
    | Hd : bool_decide _ = false |- _ => by apply bool_decide_eq_false in Hd
    end.
  - eexists. reflexivity.
Qed.

End StepFacts.

(** * Further properties of the code *)

(** ** The two classifiers *)

(** X1: [classify] and the inline classification of the workflow variant
    both give one of the four labels, and they give the same label for a
    text exactly when the text does not mention both a deprecation and a
    price. *)
Theorem classifiers_agree (text : string) :
  Scripts.classify text ∈ LABELS /\
  Workflow.classify_inline text ∈ LABELS /\
  (Scripts.classify text = Workflow.classify_inline text <->
   ~ (mentions_deprecation (lower text) = true /\ mentions_pricing (lower text) = true)).
Proof.
  rewrite classify_first_match, classify_inline_last_match. unfold LABELS.
  destruct (mentions_deprecation (lower text)), (mentions_pricing (lower text)),
    (mentions_launch (lower text));
    (split; [set_solver | split; [set_solver|]]);
    (split; [intros Heq; try discriminate Heq; intros [? ?]; discriminate
            | intros Hn; try reflexivity; exfalso; apply Hn; by split]).
Qed.

(** ** Timestamps *)

Lemma has_key_false_get (e : entry) (k : string) : has_key e k = false -> get e k = VNone.
Proof. unfold has_key, get. by destruct (e !! k). Qed.

(** X2: the two variants resolve the same timestamp for every entry: the
    test for the key [date_published] in the scripts variant and the
    unconditional fallback of the workflow variant come to the same. *)
Theorem pick_date_variants_agree (parse : string -> option Z) (e : entry) :
  Scripts.pick_date parse e = Workflow.entry_date parse e.
Proof.
  unfold Scripts.pick_date, Workflow.entry_date, Workflow.pick_date.
  destruct (pick_date_loop parse e DATE_FIELDS); [done|].
  destruct (has_key e "date_published") eqn:Hk; [done|].
  by rewrite (has_key_false_get _ _ Hk).
Qed.

(** X3: the window is a threshold on the age: an instant is in the window
    exactly when fewer than [days + 1] whole days have passed since it.
    So a larger window accepts whatever a smaller one accepts, and an
    instant that is not in the past is accepted by every window of zero
    days or more. *)
Theorem in_window_threshold (now d : Z) :
  (forall days, in_window now (Some d) days = true <-> now - d < (days + 1) * DAY_US) /\
  (forall days days', days <= days' ->
     in_window now (Some d) days = true -> in_window now (Some d) days' = true) /\
  (forall days, now <= d -> 0 <= days -> in_window now (Some d) days = true).
Proof.
  assert (Hpos : 0 < DAY_US) by (unfold DAY_US; lia).
  split; [intros days; apply in_window_iff|]. split.
  - intros days days' Hle. rewrite !in_window_iff. nia.
  - intros days Hnow Hdays. apply in_window_iff. nia.
Qed.

Lemma in_window_threshold_witness :
  in_window (utc 2024 1 12) (Some (utc 2024 1 10)) 30 = true /\
  in_window (utc 2024 1 12) (Some (utc 2024 3 1)) 0 = true.
Proof.
  split.
  - apply (proj1 (proj2 (in_window_threshold (utc 2024 1 12) (utc 2024 1 10))) 2 30);
      [lia | vm_compute; reflexivity].
  - apply (proj2 (proj2 (in_window_threshold (utc 2024 1 12) (utc 2024 3 1))) 0);
      [vm_compute; discriminate | lia].
Defined.

(** ** The keyword filter *)

Lemma lower_char_idemp (c : ascii) : lower_char (lower_char c) = lower_char c.
Proof. destruct c as [[] [] [] [] [] [] [] []]; reflexivity. Qed.

Lemma lower_idemp (s : string) : lower (lower s) = lower s.
Proof. induction s as [|c s IH]; simpl; [done|]. by rewrite lower_char_idemp, IH. Qed.

(** X4: the filter matches exactly when the lower-cased form of some
    keyword occurs in the lower-cased text; it does not depend on the case
    of the text, and adding keywords of a vendor to the global keys never
    turns a match into a miss. *)
Theorem match_kw_spec (text : string) (kws : list string) :
  (match_kw text kws = true <->
   exists k a b, k ∈ kws /\ lower text = a +:+ lower k +:+ b) /\
  match_kw (lower text) kws = match_kw text kws /\
  (forall more, match_kw text (kws ++ more) = match_kw text kws || match_kw text more).
Proof.
  unfold match_kw. split; [|split].
  - rewrite existsb_exists. split.
    + intros (k & Hk & Hin). apply str_in_spec in Hin as (a & b & Hab).
      exists k, a, b. split; [by apply list_elem_of_In | done].
    + intros (k & a & b & Hk & Hab). exists k.
      split; [by apply list_elem_of_In | apply str_in_spec; eauto].
  - by rewrite lower_idemp.
  - intros more. apply existsb_app.
Qed.

(** ** Identifiers *)

Lemma str_app_inv_head (a x y : string) : a +:+ x = a +:+ y -> x = y.
Proof. induction a as [|c a IH]; simpl; [done|]. intros H. injection H as H. by apply IH. Qed.

(** X5: for one date and one vendor, two titles get the same id from
    [safe_id] exactly when their slugs agree on the first 50 characters;
    and the id does not depend on the case of the vendor or of the title,
    in either variant. *)
Theorem safe_id_collisions (date_str vendor title1 title2 : string) :
  (Scripts.safe_id date_str vendor title1 = Scripts.safe_id date_str vendor title2 <->
   str_take 50 (slug_spec title1) = str_take 50 (slug_spec title2)) /\
  Scripts.safe_id date_str (lower vendor) (lower title1)
    = Scripts.safe_id date_str vendor title1 /\
  Workflow.item_id date_str (lower vendor) (lower title1)
    = Workflow.item_id date_str vendor title1.
Proof.
  split; [|split].
  - unfold Scripts.safe_id. rewrite !slugify_spec. split.
    + intros H. by do 4 apply str_app_inv_head in H.
    + by intros ->.
  - unfold Scripts.safe_id, slugify. by rewrite !lower_idemp.
  - unfold Workflow.item_id, slugify. by rewrite !lower_idemp.
Qed.

(** ** The shape of a slug *)

Lemma list_ascii_app (a b : string) :
  list_ascii_of_string (a +:+ b) = list_ascii_of_string a ++ list_ascii_of_string b.
Proof. induction a as [|c a IH]; simpl; [done|]. by rewrite IH. Qed.

Lemma alnum_words_alnum (s : string) : Forall alnum_word (alnum_words s).
Proof.
  induction s as [|c r IH]; simpl; [constructor|].
  destruct (is_alnum_lc c) eqn:Hc; [|done].
  destruct (starts_alnum r).
  - destruct (alnum_words r) as [|w ws].
    + repeat constructor; [done | by simpl].
    + inversion IH as [|? ? [Hw1 Hw2] Hws]; subst.
      constructor; [|done]. split; [done|]. simpl. by constructor.
  - constructor; [|done]. split; [done|]. simpl. by repeat constructor.
Qed.

Lemma prefix_cons (a c : ascii) (k r : string) :
  String.prefix (String a k) (String c r) =
    match ascii_dec a c with
    | left _ => String.prefix k r
    | right _ => false
    end.
Proof. reflexivity. Qed.

Lemma str_in_dd_cons (c : ascii) (r : string) :
  str_in "--" (String c r) = (Ascii.eqb c dash && String.prefix "-" r) || str_in "--" r.
Proof.
  cbn [str_in]. f_equal.
  change "--" with (String dash "-"). rewrite prefix_cons.
  destruct (ascii_dec dash c) as [<-|Hne]; [done|].
  destruct (Ascii.eqb_spec c dash) as [->|]; done.
Qed.

Lemma str_ends_dash_cons (c : ascii) (r : string) :
  str_ends_with "-" (String c r) =
    (Ascii.eqb c dash && String.eqb r "") || str_ends_with "-" r.
Proof. cbn [str_ends_with]. f_equal. Qed.

Lemma join_dash_cons2 (w w' : string) (ws : list string) :
  join_dash (w :: w' :: ws) = w +:+ String dash (join_dash (w' :: ws)).
Proof. reflexivity. Qed.

Lemma join_dash_nonempty (w : string) (ws : list string) :
  Forall alnum_word (w :: ws) -> exists c r, join_dash (w :: ws) = String c r /\ is_alnum_lc c = true.
Proof.
  intros H. inversion H as [|? ? [Hne Hw] _]; subst.
  destruct w as [|c w]; [done|]. rewrite join_dash_cons_char.
  inversion Hw; subst. eauto.
Qed.

(** A run of characters of a word in front of a string that is well
    formed keeps it well formed. *)
Lemma word_prepend (w rest : string) :
  Forall (fun c => is_alnum_lc c = true) (list_ascii_of_string w) ->
  str_in "--" rest = false -> str_ends_with "-" rest = false -> rest <> "" ->
  str_in "--" (w +:+ rest) = false /\ str_ends_with "-" (w +:+ rest) = false.
Proof.
  intros Hw Hdd Hend Hne. induction w as [|c w IH]; [done|].
  simpl in Hw. inversion Hw as [|? ? Hc Hw']; subst.
  destruct (IH Hw') as [IH1 IH2].
  change (String c w +:+ rest) with (String c (w +:+ rest)).
  rewrite str_in_dd_cons, str_ends_dash_cons, IH1, IH2, (alnum_not_dash _ Hc). done.
Qed.

Lemma word_alone (w : string) :
  alnum_word w -> str_in "--" w = false /\ str_ends_with "-" w = false.
Proof.
  intros [_ Hw]. induction w as [|c w IH]; [done|].
  simpl in Hw. inversion Hw as [|? ? Hc Hw']; subst.
  destruct (IH Hw') as [IH1 IH2].
  rewrite str_in_dd_cons, str_ends_dash_cons, IH1, IH2, (alnum_not_dash _ Hc). done.
Qed.

Lemma join_dash_shape (ws : list string) :
  Forall alnum_word ws ->
  Forall (fun c => is_slug_char c = true) (list_ascii_of_string (join_dash ws)) /\
  String.prefix "-" (join_dash ws) = false /\
  str_in "--" (join_dash ws) = false /\
  str_ends_with "-" (join_dash ws) = false.
Proof.
  induction ws as [|w ws IH]; intros H; [by repeat split|].
  assert (Hpre : String.prefix "-" (join_dash (w :: ws)) = false).
  { destruct (join_dash_nonempty _ _ H) as (c & r & -> & Hc).
    change "-" with (String dash ""). rewrite prefix_cons.
    destruct (ascii_dec dash c) as [<-|]; [discriminate Hc | done]. }
  inversion H as [|? ? Hw Hws]; subst.
  assert (Hchars : Forall (fun c => is_slug_char c = true) (list_ascii_of_string w)).
  { destruct Hw as [_ Hw]. eapply Forall_impl; [exact Hw|].
    intros c Hc. unfold is_slug_char. by rewrite Hc. }
  destruct ws as [|w' ws].
  - simpl. destruct (word_alone _ Hw) as [? ?]. by repeat split.
  - destruct (IH Hws) as (IHc & IHp & IHd & IHe).
    rewrite join_dash_cons2. repeat split; [| done | |].
    + rewrite list_ascii_app. apply Forall_app. split; [done|].
      simpl. by constructor.
    + apply word_prepend; [by destruct Hw | | | done].
      * rewrite str_in_dd_cons, IHp, IHd. by rewrite andb_false_r.
      * destruct (join_dash_nonempty _ _ Hws) as (c & r & Hj & _).
        rewrite str_ends_dash_cons, IHe, Hj. by rewrite andb_false_r.
    + apply word_prepend; [by destruct Hw | | | done].
      * rewrite str_in_dd_cons, IHp, IHd. by rewrite andb_false_r.
      * destruct (join_dash_nonempty _ _ Hws) as (c & r & Hj & _).
        rewrite str_ends_dash_cons, IHe, Hj. by rewrite andb_false_r.
Qed.

(** X6: the slug of any text holds only the characters [a-z], [0-9] and
    the dash, has no dash at either end and no two dashes in a row. *)
Theorem slugify_shape (s : string) :
  Forall (fun c => is_slug_char c = true) (list_ascii_of_string (slugify s)) /\
  String.prefix "-" (slugify s) = false /\
  str_in "--" (slugify s) = false /\
  str_ends_with "-" (slugify s) = false.
Proof. rewrite slugify_spec. apply join_dash_shape, alnum_words_alnum. Qed.

(** ** The size of the output *)

Lemma py_slice_to_length {A} (top : Z) (l : list A) :
  length (py_slice_to top l) =
    if 0 <=? top then Nat.min (Z.to_nat top) (length l)
    else (length l - Z.to_nat (- top))%nat.
Proof.
  unfold py_slice_to. destruct (0 <=? top); rewrite length_take; lia.
Qed.

Lemma sort_desc_length {A K} (key : A -> K) (ltb : K -> K -> bool) (l : list A) :
  length (sort_desc key ltb l) = length l.
Proof. apply Permutation_length, sort_desc_perm. Qed.

(** X7: with a bound [top] of zero or more, the output of either variant
    has at most [top] items.  A negative [top] is not refused: the scripts
    variant then drops the last [-top] items of the sorted list. *)
Theorem output_within_top
    (parse : string -> option Z) (html_summary : string -> string) (clock : nat -> Z)
    (fs : string -> file) (cfg : list vendor_cfg) :
  (forall a out,
     Scripts.main parse html_summary clock fs a cfg = Ok out ->
     exists l,
       Scripts.accumulate parse html_summary clock fs a cfg = Ok l /\
       (0 <= Scripts.top a -> Z.of_nat (length out) <= Scripts.top a) /\
       (Scripts.top a < 0 ->
        length out = (length l - Z.to_nat (- Scripts.top a))%nat)) /\
  (forall a out,
     Workflow.main parse html_summary clock a cfg = Ok out ->
     0 <= Workflow.top a -> Z.of_nat (length out) <= Workflow.top a).
Proof.
  split.
  - intros a out Hmain.
    destruct (main_inv _ _ _ _ _ _ _ Hmain)
      as (st0 & news & _ & Hacc & _ & _ & _ & _ & ->).
    eexists. split; [exact Hacc|].
    rewrite py_slice_to_length, sort_desc_length.
    split; intros Htop.
    + apply Z.leb_le in Htop as Hb. rewrite Hb. lia.
    + apply Z.leb_gt in Htop as Hb. by rewrite Hb.
  - intros a out Hmain Htop. unfold Workflow.main, bind in Hmain.
    destruct (Workflow.collect _ _ _ a cfg) as [l|]; [|done]. injection Hmain as <-.
    unfold Workflow.rank. rewrite py_slice_to_length.
    apply Z.leb_le in Htop as Hb. rewrite Hb. lia.
Qed.

Lemma output_within_top_witness :
  (exists out,
     Scripts.main parse_iso_date demo_html demo_clock demo_fs
       {| Scripts.infile := "data/agent-radar.json"; Scripts.days := 30; Scripts.top := 1 |}
       demo_cfg = Ok out /\ Z.of_nat (length out) <= 1) /\
  (exists out,
     Workflow.main parse_iso_date demo_html demo_clock
       {| Workflow.days := 30; Workflow.top := 1 |} demo_cfg = Ok out /\
     Z.of_nat (length out) <= 1).
Proof.
  destruct (output_within_top parse_iso_date demo_html demo_clock demo_fs demo_cfg)
    as [Hs Hw].
  split; eexists; (split; [vm_compute; reflexivity|]).
  - edestruct (Hs {| Scripts.infile := "data/agent-radar.json"; Scripts.days := 30;
                     Scripts.top := 1 |}) as (l & _ & Hle & _);
      [vm_compute; reflexivity|].
    apply Hle. simpl. lia.
  - apply (Hw {| Workflow.days := 30; Workflow.top := 1 |});
      [vm_compute; reflexivity | simpl; lia].
Defined.

(** ** Runs without history *)

Lemma init_state_empty (fs : string -> file) (path : string) :
  Scripts.load_existing fs path = JArr [] ->
  Scripts.init_state fs path
    = Ok {| Scripts.merged := []; Scripts.seen := ∅; Scripts.ticks := 0 |}.
Proof. unfold Scripts.init_state. by intros ->. Qed.

(** X8: when the loader gives the empty history (no path, no file, or a
    file that is no snapshot), every item of the output of the scripts
    variant is an item built in this run, and no two of them share an
    id. *)
Theorem stateless_ids_distinct
    (parse : string -> option Z) (html_summary : string -> string) (clock : nat -> Z)
    (fs : string -> file) (a : Scripts.args) (cfg : list vendor_cfg) (out : list jdict) :
  Scripts.load_existing fs (Scripts.infile a) = JArr [] ->
  Scripts.main parse html_summary clock fs a cfg = Ok out ->
  (exists items, out = map item_json items /\ NoDup (map id items)) /\
  NoDup (map Scripts.id_key out).
Proof.
  intros Hload Hmain.
  destruct (main_inv _ _ _ _ _ _ _ Hmain)
    as (st0 & news & Hinit & _ & Hd & Hf & _ & _ & ->).
  rewrite (init_state_empty _ _ Hload) in Hinit. injection Hinit as <-.
  cbn [Scripts.merged app] in *.
  assert (Hall : NoDup (map Scripts.id_key (map item_json news))).
  { apply (fresh_ids_distinct
             {| Scripts.merged := []; Scripts.seen := ∅; Scripts.ticks := 0 |} news);
      simpl; try done; [set_solver | constructor]. }
  split.
  - set (sorted := sort_desc Scripts.date_of String.ltb (map item_json news)) in *.
    assert (Hsub : py_slice_to (Scripts.top a) sorted `sublist_of` sorted)
      by apply prefix_sublist, py_slice_to_prefix.
    assert (Hin : forall j, j ∈ sorted -> exists it, j = item_json it /\ it ∈ news).
    { intros j Hj. unfold sorted in Hj. rewrite sort_desc_perm in Hj.
      by apply list_elem_of_fmap in Hj. }
    assert (Hnd : NoDup (map Scripts.id_key (py_slice_to (Scripts.top a) sorted))).
    { eapply sublist_NoDup; [|apply (fmap_sublist Scripts.id_key), Hsub].
      unfold sorted. by rewrite sort_desc_perm. }
    assert (Hin' : forall j, j ∈ py_slice_to (Scripts.top a) sorted ->
                             exists it, j = item_json it).
    { intros j Hj. destruct (Hin j) as (it & -> & _); [|by eexists].
      eapply elem_of_sublist; eauto. }
    clear Hsub Hin Hmain. induction (py_slice_to (Scripts.top a) sorted) as [|j r IH].
    + exists []. split; [done | constructor].
    + destruct (Hin' j) as (it & ->); [by left|].
      simpl in Hnd. inversion Hnd as [|? ? Hnotin Hnd']; subst.
      destruct IH as (items & -> & Hitems);
        [first [done | intros j' Hj'; apply Hin'; by right] ..|].
      exists (it :: items). split; [done|]. simpl. constructor; [|done].
      intros Hin. apply Hnotin. rewrite id_key_item_json.
      apply list_elem_of_fmap in Hin as (it' & Heq & Hit').
      apply list_elem_of_fmap. exists (item_json it').
      split; [by rewrite id_key_item_json, Heq|].
      by apply (list_elem_of_fmap_2 item_json).
  - eapply sublist_NoDup;
      [|apply (fmap_sublist Scripts.id_key), prefix_sublist, py_slice_to_prefix].
    by rewrite sort_desc_perm.
Qed.

Lemma stateless_ids_distinct_witness :
  exists out,
    Scripts.main parse_iso_date demo_html demo_clock demo_fs (demo_args "") demo_cfg = Ok out /\
    length out = 2%nat /\ NoDup (map Scripts.id_key out).
Proof.
  eexists. split; [vm_compute; reflexivity|]. split; [reflexivity|].
  eapply (stateless_ids_distinct parse_iso_date demo_html demo_clock demo_fs
            (demo_args "") demo_cfg); vm_compute; reflexivity.
Defined.

(** ** Snapshots read back *)

Lemma omap_as_dict_objs (l : list jdict) : omap as_dict (map JObj l) = l.
Proof. induction l as [|o l IH]; [done|]. simpl. f_equal. exact IH. Qed.

Lemma init_state_content (fs : string -> file) (path : string) (l : list json) :
  path <> "" ->
  Scripts.load_existing fs path = JArr l ->
  Scripts.init_state fs path =
    if forallb (fun it => Scripts.hashable (Scripts.id_key it)) (omap as_dict l)
    then Ok {| Scripts.merged := omap as_dict l;
               Scripts.seen := list_to_set
                 (omap (fun it => Scripts.str_of_json (Scripts.id_key it)) (omap as_dict l));
               Scripts.ticks := 0 |}
    else Raise TypeError.
Proof. intros _ Hl. unfold Scripts.init_state. by rewrite Hl. Qed.

(** X9: a prior snapshot may be a bare list or an object holding the list
    under [items]: both give the same run.  The elements of the list that
    are no objects are skipped, and the objects are kept in their order. *)
Theorem snapshot_formats_agree
    (parse : string -> option Z) (html_summary : string -> string) (clock : nat -> Z)
    (fs1 fs2 : string -> file) (a1 a2 : Scripts.args) (cfg : list vendor_cfg)
    (l : list json) (o : jdict) :
  Scripts.infile a1 <> "" -> Scripts.infile a2 <> "" ->
  Scripts.days a1 = Scripts.days a2 -> Scripts.top a1 = Scripts.top a2 ->
  fs1 (Scripts.infile a1) = Content (Some (JArr l)) ->
  fs2 (Scripts.infile a2) = Content (Some (JObj o)) ->
  dict_get "items" o = Some (JArr l) ->
  Scripts.main parse html_summary clock fs1 a1 cfg
    = Scripts.main parse html_summary clock fs2 a2 cfg /\
  forall st0, Scripts.init_state fs1 (Scripts.infile a1) = Ok st0 ->
              Scripts.merged st0 = omap as_dict l.
Proof.
  intros Hp1 Hp2 Hdays Htop Hfs1 Hfs2 Hitems.
  assert (H1 : Scripts.load_existing fs1 (Scripts.infile a1) = JArr l)
    by (by rewrite (load_existing_content _ _ _ Hp1 Hfs1)).
  assert (H2 : Scripts.load_existing fs2 (Scripts.infile a2) = JArr l)
    by (by rewrite (load_existing_content _ _ _ Hp2 Hfs2), Hitems).
  split.
  - unfold Scripts.main, Scripts.accumulate.
    rewrite (init_state_content _ _ _ Hp1 H1), (init_state_content _ _ _ Hp2 H2).
    by rewrite Hdays, Htop.
  - intros st0. rewrite (init_state_content _ _ _ Hp1 H1).
    destruct (forallb _ _); [|done]. by intros [= <-].
Qed.

Lemma snapshot_formats_agree_witness :
  Scripts.main parse_iso_date demo_html demo_clock
    (fun _ => Content (Some (JArr [JStr "note"; JObj prior_foo])))
    (demo_args "data/list.json") demo_cfg
  = Scripts.main parse_iso_date demo_html demo_clock
      (fun _ => Content (Some (JObj [("items", JArr [JStr "note"; JObj prior_foo])])))
      (demo_args "data/object.json") demo_cfg.
Proof.
  apply (snapshot_formats_agree parse_iso_date demo_html demo_clock
           (fun _ => Content (Some (JArr [JStr "note"; JObj prior_foo])))
           (fun _ => Content (Some (JObj [("items", JArr [JStr "note"; JObj prior_foo])])))
           (demo_args "data/list.json") (demo_args "data/object.json") demo_cfg
           [JStr "note"; JObj prior_foo]
           [("items", JArr [JStr "note"; JObj prior_foo])]);
    try reflexivity; discriminate.
Defined.

(** ** Running again on the own output *)

Lemma sort_desc_sorted_id {A K} (key : A -> K) (ltb : K -> K -> bool) (l : list A) :
  StronglySorted (desc key ltb) l -> sort_desc key ltb l = l.
Proof.
  induction 1 as [|x l _ IH Hx]; simpl; [done|]. rewrite IH.
  destruct l as [|y r]; simpl; [done|].
  inversion Hx as [|? ? Hxy _]; subst. unfold desc in Hxy. by rewrite Hxy.
Qed.

Lemma init_state_hashable (fs : string -> file) (path : string) (st0 : Scripts.state) :
  Scripts.init_state fs path = Ok st0 ->
  Forall (fun it => Scripts.hashable (Scripts.id_key it) = true) (Scripts.merged st0).
Proof.
  unfold Scripts.init_state. intros H. cbv zeta in H.
  repeat (step_result H; try discriminate). injection H as <-. simpl.
  apply Forall_forall. intros it Hit.
  match goal with
  | Hf : forallb _ _ = true |- _ => rewrite forallb_forall in Hf; apply Hf
  end.
  by apply list_elem_of_In.
Qed.

Section RerunFacts.
Variable parse : string -> option Z.
Variable html_summary : string -> string.
Variable clock : nat -> Z.

Lemma foldM_no_entries (days : Z) (cfg : list vendor_cfg) (st : Scripts.state) :
  no_entries cfg ->
  foldM (Scripts.process_vendor parse html_summary clock days) cfg st = Ok st.
Proof.
  induction 1 as [|v cfg Hv _ IH]; simpl; [done|].
  assert (Hfeeds : Scripts.process_vendor parse html_summary clock days st v = Ok st).
  { unfold Scripts.process_vendor. induction Hv as [|f fs -> _ IHf]; simpl; done. }
  by rewrite Hfeeds.
Qed.

End RerunFacts.

(** X10: a run that reads its own previous output as prior snapshot and
    meets no entry writes the same snapshot again, whenever the bound
    [top] of the first run is zero or more and the bound of the second run
    is not smaller. *)
Theorem rerun_on_own_output
    (parse : string -> option Z) (html_summary : string -> string)
    (clock clock' : nat -> Z) (fs fs' : string -> file)
    (a a' : Scripts.args) (cfg cfg' : list vendor_cfg) (out : list jdict) :
  Scripts.main parse html_summary clock fs a cfg = Ok out ->
  0 <= Scripts.top a <= Scripts.top a' ->
  Scripts.infile a' <> "" ->
  fs' (Scripts.infile a') = Content (Some (snapshot_doc out)) ->
  no_entries cfg' ->
  Scripts.main parse html_summary clock' fs' a' cfg' = Ok out.
Proof.
  intros Hmain [Htop Htop'] Hpath Hfs Hcfg.
  destruct (main_inv _ _ _ _ _ _ _ Hmain)
    as (st0 & news & Hinit & _ & _ & _ & _ & Hkeys & Hout).
  set (L := Scripts.merged st0 ++ map item_json news) in *.
  set (sorted := sort_desc Scripts.date_of String.ltb L) in *.
  assert (Hpre : out `prefix_of` sorted) by (rewrite Hout; apply py_slice_to_prefix).
  assert (Hin : forall j, j ∈ out -> j ∈ L).
  { intros j Hj. unfold sorted in Hpre. rewrite <- (sort_desc_perm Scripts.date_of String.ltb L).
    eapply elem_of_sublist; [exact Hj | by apply prefix_sublist]. }
  assert (Hhash : forallb (fun it => Scripts.hashable (Scripts.id_key it)) out = true).
  { apply forallb_forall. intros j Hj. apply list_elem_of_In, Hin in Hj.
    apply elem_of_app in Hj as [Hj|Hj].
    - pose proof (init_state_hashable _ _ _ Hinit) as Hh.
      rewrite Forall_forall in Hh. by apply Hh.
    - apply list_elem_of_fmap in Hj as (it & -> & _). by rewrite id_key_item_json. }
  assert (Hstr : forallb (fun it => bool_decide (is_Some (Scripts.str_of_json (Scripts.key_date it))))
                   out = true).
  { apply forallb_forall. intros j Hj. apply list_elem_of_In, Hin in Hj.
    rewrite Forall_forall in Hkeys. rewrite (Hkeys j Hj). by apply bool_decide_eq_true. }
  assert (Hsorted : StronglySorted (desc Scripts.date_of String.ltb) out).
  { eapply StronglySorted_prefix; [exact Hpre|].
    apply sort_desc_sorted; [apply string_ltb_asym | apply string_ltb_negtrans]. }
  assert (Hlen : Z.of_nat (length out) <= Scripts.top a).
  { rewrite Hout, py_slice_to_length. apply Z.leb_le in Htop as Hb. rewrite Hb. lia. }
  unfold Scripts.main, Scripts.accumulate.
  assert (Hload : Scripts.load_existing fs' (Scripts.infile a') = JArr (map JObj out)).
  { by rewrite (load_existing_content _ _ _ Hpath Hfs). }
  rewrite (init_state_content _ _ _ Hpath Hload), omap_as_dict_objs, Hhash.
  cbn [bind]. rewrite foldM_no_entries by done. cbn [bind Scripts.merged].
  unfold Scripts.sort_and_cut. rewrite Hstr, (sort_desc_sorted_id _ _ _ Hsorted).
  rewrite py_slice_to_all by lia. done.
Qed.

Lemma rerun_on_own_output_witness :
  exists out,
    Scripts.main parse_iso_date demo_html demo_clock demo_fs
      (demo_args "data/agent-radar.json") demo_cfg = Ok out /\
    length out = 2%nat /\
    Scripts.main parse_iso_date demo_html demo_clock
      (fun _ => Content (Some (snapshot_doc out)))
      (demo_args "data/agent-radar.json") [acme [[]; []]] = Ok out.
Proof.
  eexists. split; [vm_compute; reflexivity|]. split; [reflexivity|].
  eapply (rerun_on_own_output parse_iso_date demo_html demo_clock demo_clock demo_fs _
            (demo_args "data/agent-radar.json") (demo_args "data/agent-radar.json") demo_cfg).
  - vm_compute; reflexivity.
  - simpl; lia.
  - discriminate.
  - reflexivity.
  - repeat constructor.
Defined.

(** ** What the deduplication of the workflow variant keeps *)

Lemma dedup_loop_keeps (R : Item -> Item -> Prop) (seen : gset (string * string))
    (l : list Item) (x : Item) :
  StronglySorted R l -> x ∈ l -> dedup_key x ∉ seen ->
  exists y, y ∈ Workflow.dedup_loop seen l /\ dedup_key y = dedup_key x /\ (y = x \/ R y x).
Proof.
  intros Hs. revert seen. induction Hs as [|h r Hr IH Hh]; intros seen Hx Hseen.
  - by apply elem_of_nil in Hx.
  - cbn [Workflow.dedup_loop]. change (vendor h, name h) with (dedup_key h).
    destruct (bool_decide (dedup_key h ∈ seen)) eqn:Hd.
    + apply bool_decide_eq_true in Hd.
      apply elem_of_cons in Hx as [->|Hx]; [done|]. by apply IH.
    + apply elem_of_cons in Hx as [->|Hx].
      * exists h. split; [by left|]. split; [done | by left].
      * destruct (decide (dedup_key x = dedup_key h)) as [Heq|Hne].
        -- exists h. split; [by left|]. split; [done|]. right.
           rewrite Forall_forall in Hh. by apply Hh.
        -- destruct (IH ({[dedup_key h]} ∪ seen) Hx) as (y & Hy & Hk & Hyx);
             [set_solver|].
           exists y. split; [by right | done].
Qed.

(** X11: in the workflow variant, an item that was collected is
    represented in the output, when the bound [top] does not cut it, by an
    item of the same vendor and name whose date is not earlier: of the
    items that share vendor and name, one with the latest date stays. *)
Theorem dedup_keeps_latest
    (parse : string -> option Z) (html_summary : string -> string) (clock : nat -> Z)
    (a : Workflow.args) (cfg : list vendor_cfg) (out : list Item) :
  Workflow.main parse html_summary clock a cfg = Ok out ->
  exists l,
    Workflow.collect parse html_summary clock a cfg = Ok l /\
    (Z.of_nat (length l) <= Workflow.top a ->
     forall x, x ∈ l ->
       exists y, y ∈ out /\ vendor y = vendor x /\ name y = name x /\
                 String.leb (date x) (date y) = true).
Proof.
  intros Hmain. unfold Workflow.main, bind in Hmain.
  destruct (Workflow.collect _ _ _ a cfg) as [l|]; [|done]. injection Hmain as <-.
  exists l. split; [done|]. intros Hlen x Hx.
  unfold Workflow.rank. rewrite py_slice_to_all.
  - destruct (dedup_loop_keeps (desc Workflow.sort_key pair_ltb) ∅
                (sort_desc Workflow.sort_key pair_ltb l) x) as (y & Hy & Hk & Hyx).
    + apply sort_desc_sorted; [apply pair_ltb_asym | apply pair_ltb_negtrans].
    + by rewrite sort_desc_perm.
    + set_solver.
    + exists y. split; [done|]. injection Hk as Hv Hn. split; [done|]. split; [done|].
      apply string_ltb_false_leb. destruct Hyx as [->|Hyx].
      * apply string_ltb_irrefl.
      * by apply pair_ltb_false_fst in Hyx.
  - pose proof (sublist_length _ _ (dedup_loop_sublist ∅ (sort_desc Workflow.sort_key pair_ltb l))) as Hl.
    rewrite sort_desc_length in Hl. lia.
Qed.

Lemma dedup_keeps_latest_witness :
  exists out,
    Workflow.main parse_iso_date demo_html demo_clock demo_wargs demo_cfg = Ok out /\
    length out = 2%nat /\
    exists y, y ∈ out /\ vendor y = "Acme" /\ name y = "Agent Engine GA" /\
              String.leb "2024-01-10" (date y) = true.
Proof.
  eexists. split; [vm_compute; reflexivity|]. split; [reflexivity|].
  edestruct (dedup_keeps_latest parse_iso_date demo_html demo_clock demo_wargs demo_cfg)
    as (l & Hl & Hkeep); [vm_compute; reflexivity|].
  vm_compute in Hl. injection Hl as <-.
  refine (Hkeep _ _ (list_elem_of_further _ _ _ (list_elem_of_further _ _ _ (list_elem_of_here _ _))));
    vm_compute; discriminate.
Defined.

(** ** Where the items of an output come from *)

Lemma foldM_ind_elem {A B} (R : A -> A -> Prop) (f : A -> B -> result A) (l : list B) :
  (forall a, R a a) ->
  (forall a b c, R a b -> R b c -> R a c) ->
  (forall a x a', x ∈ l -> f a x = Ok a' -> R a a') ->
  forall a a', foldM f l a = Ok a' -> R a a'.
Proof.
  intros Hrefl Htrans. induction l as [|x l IH]; intros Hstep a a' H; simpl in H.
  - injection H as <-. apply Hrefl.
  - destruct (f a x) as [b|] eqn:Hf; simpl in H; [|done].
    eapply Htrans; [eapply Hstep; [by left | exact Hf]|].
    eapply IH; [|exact H]. intros a0 y a0' Hy. apply Hstep. by right.
Qed.

Lemma adds_refl (P : Item -> Prop) (st : Scripts.state) : adds P st st.
Proof. exists []. simpl. by rewrite app_nil_r. Qed.

Lemma adds_trans (P : Item -> Prop) (a b c : Scripts.state) :
  adds P a b -> adds P b c -> adds P a c.
Proof.
  intros (n1 & H1 & F1) (n2 & H2 & F2). exists (n1 ++ n2).
  split; [by rewrite H2, H1, map_app, <- app_assoc | by apply Forall_app].
Qed.

Lemma adds_impl (P Q : Item -> Prop) (a b : Scripts.state) :
  (forall it, P it -> Q it) -> adds P a b -> adds Q a b.
Proof.
  intros HPQ (n & H & F). exists n. split; [done|]. eapply Forall_impl; eauto.
Qed.

Lemma wadds_refl (P : Item -> Prop) (st : Workflow.state) : wadds P st st.
Proof. exists []. by rewrite app_nil_r. Qed.

Lemma wadds_trans (P : Item -> Prop) (a b c : Workflow.state) :
  wadds P a b -> wadds P b c -> wadds P a c.
Proof.
  intros (n1 & H1 & F1) (n2 & H2 & F2). exists (n1 ++ n2).
  split; [by rewrite H2, H1, <- app_assoc | by apply Forall_app].
Qed.

Lemma wadds_impl (P Q : Item -> Prop) (a b : Workflow.state) :
  (forall it, P it -> Q it) -> wadds P a b -> wadds Q a b.
Proof.
  intros HPQ (n & H & F). exists n. split; [done|]. eapply Forall_impl; eauto.
Qed.

Lemma format_value_truthy (v : value) (s : string) :
  truthy v = true -> format_value v = Ok s -> v = VStr s /\ s <> "".
Proof.
  destruct v as [|s'| |]; simpl; try done.
  intros Ht [= <-]. split; [done|]. intros ->. done.
Qed.

Lemma py_or_empty_str (x : value) (s : string) :
  format_value (py_or x (VStr "")) = Ok s -> py_or x (VStr "") = VStr s.
Proof.
  unfold py_or. destruct (truthy x) eqn:Hx.
  - intros H. by destruct (format_value_truthy _ _ Hx H).
  - simpl. by intros [= <-].
Qed.

Section Provenance.
Variable parse : string -> option Z.
Variable html_summary : string -> string.
Variable clock : nat -> Z.

Lemma process_entry_item (days : Z) (v : vendor_cfg) (st st' : Scripts.state) (e : entry) :
  Scripts.process_entry parse html_summary clock days v st e = Ok st' ->
  adds (scripts_item_of parse html_summary clock days v e) st st'.
Proof.
  unfold Scripts.process_entry. cbv zeta. intros H.
  destruct (negb (truthy (entry_link e)) || negb (truthy (entry_title e))) eqn:Hguard;
    [injection H as <-; apply adds_refl|].
  apply orb_false_iff in Hguard as [Hl Ht].
  apply negb_false_iff in Hl, Ht.
  destruct (Scripts.pick_date parse e) as [dt|] eqn:Hdt; [|injection H as <-; apply adds_refl].
  destruct (negb (in_window (clock (Scripts.ticks st)) (Some dt) days)) eqn:Hwin;
    [injection H as <-; exists []; simpl; by rewrite app_nil_r|].
  apply negb_false_iff in Hwin.
  destruct (format_value (entry_title e)) as [title|] eqn:Hft; cbn [bind] in H; [|done].
  destruct (format_value (py_or (py_or (get e "summary") (get e "content_text")) (VStr "")))
    as [desc|] eqn:Hfd; cbn [bind] in H; [|done].
  destruct (format_value (entry_link e)) as [link|] eqn:Hfl; cbn [bind] in H; [|done].
  destruct (negb (match_kw _ _)) eqn:Hkw;
    [injection H as <-; exists []; simpl; by rewrite app_nil_r|].
  apply negb_false_iff in Hkw.
  destruct (bool_decide _) eqn:Hseen;
    [injection H as <-; exists []; simpl; by rewrite app_nil_r|].
  injection H as <-.
  destruct (format_value_truthy _ _ Ht Hft) as [Htitle Htne].
  destruct (format_value_truthy _ _ Hl Hfl) as [Hlink Hlne].
  apply py_or_empty_str in Hfd.
  eexists [_]. split; [reflexivity|]. constructor; [|constructor].
  exists title, link, desc, dt, (Scripts.ticks st). by repeat split.
Qed.

Lemma wf_process_entry_item (days : Z) (v : vendor_cfg) (st st' : Workflow.state) (e : entry) :
  Workflow.process_entry parse html_summary clock days v st e = Ok st' ->
  wadds (workflow_item_of parse html_summary clock days v e) st st'.
Proof.
  unfold Workflow.process_entry. cbv zeta. intros H.
  destruct (negb (truthy (entry_link e))) eqn:Hl; [injection H as <-; apply wadds_refl|].
  apply negb_false_iff in Hl.
  destruct (Workflow.entry_date parse e) as [dt|] eqn:Hdt; [|injection H as <-; apply wadds_refl].
  destruct (negb (in_window (clock (Workflow.ticks st)) (Some dt) days)) eqn:Hwin;
    [injection H as <-; exists []; simpl; by rewrite app_nil_r|].
  apply negb_false_iff in Hwin.
  destruct (format_value (entry_title e)) as [title|] eqn:Hft; cbn [bind] in H; [|done].
  destruct (format_value (py_or (get e "summary") (get_default e "content" (VStr ""))))
    as [desc|] eqn:Hfd; cbn [bind] in H; [|done].
  destruct (format_value (entry_link e)) as [link|] eqn:Hfl; cbn [bind] in H; [|done].
  destruct (negb (match_kw _ _)) eqn:Hkw;
    [injection H as <-; exists []; simpl; by rewrite app_nil_r|].
  apply negb_false_iff in Hkw.
  destruct (as_str (py_or (py_or (get e "summary") (get e "content_text")) (VStr "")))
    as [summ|] eqn:Hsumm; cbn [bind] in H; [|done].
  injection H as <-.
  destruct (format_value_truthy _ _ Hl Hfl) as [Hlink Hlne].
  apply py_or_empty_str in Hft.
  assert (Hs : py_or (py_or (get e "summary") (get e "content_text")) (VStr "") = VStr summ).
  { destruct (py_or (py_or (get e "summary") (get e "content_text")) (VStr ""));
      simpl in Hsumm; try discriminate Hsumm.
    by injection Hsumm as ->. }
  eexists [_]. split; [reflexivity|]. constructor; [|constructor].
  exists title, link, desc, summ, dt, (Workflow.ticks st). by repeat split.
Qed.

Lemma scripts_loop_from_config (days : Z) (cfg : list vendor_cfg) (st0 st : Scripts.state) :
  foldM (Scripts.process_vendor parse html_summary clock days) cfg st0 = Ok st ->
  adds (from_config (scripts_item_of parse html_summary clock days) cfg) st0 st.
Proof.
  apply foldM_ind_elem; [apply adds_refl | apply adds_trans |].
  intros a v a' Hv. unfold Scripts.process_vendor.
  apply foldM_ind_elem; [apply adds_refl | apply adds_trans |].
  intros b f b' Hf. unfold Scripts.process_feed.
  apply foldM_ind_elem; [apply adds_refl | apply adds_trans |].
  intros c e c' He Hstep. apply process_entry_item in Hstep.
  eapply adds_impl; [|exact Hstep]. intros it Hit. by exists v, f, e.
Qed.

Lemma workflow_collect_from_config (a : Workflow.args) (cfg : list vendor_cfg) (l : list Item) :
  Workflow.collect parse html_summary clock a cfg = Ok l ->
  Forall (from_config (workflow_item_of parse html_summary clock (Workflow.days a)) cfg) l.
Proof.
  unfold Workflow.collect, bind. intros H.
  destruct (foldM _ cfg _) as [st|] eqn:Hf; [|done]. injection H as <-.
  assert (Hg : wadds (from_config (workflow_item_of parse html_summary clock (Workflow.days a)) cfg)
                 {| Workflow.items := []; Workflow.ticks := 0 |} st).
  { revert Hf. apply foldM_ind_elem; [apply wadds_refl | apply wadds_trans |].
    intros x v x' Hv. unfold Workflow.process_vendor.
    apply foldM_ind_elem; [apply wadds_refl | apply wadds_trans |].
    intros y f y' Hfd. unfold Workflow.process_feed.
    apply foldM_ind_elem; [apply wadds_refl | apply wadds_trans |].
    intros z e z' He Hstep. apply wf_process_entry_item in Hstep.
    eapply wadds_impl; [|exact Hstep]. intros it Hit. by exists v, f, e. }
  destruct Hg as (news & -> & Hn). done.
Qed.

Lemma scripts_main_from_config (fs : string -> file) (a : Scripts.args)
    (cfg : list vendor_cfg) (out : list jdict) :
  Scripts.main parse html_summary clock fs a cfg = Ok out ->
  exists st0,
    Scripts.init_state fs (Scripts.infile a) = Ok st0 /\
    Forall (fun j => j ∈ Scripts.merged st0 \/
                     exists it, j = item_json it /\
                       from_config (scripts_item_of parse html_summary clock (Scripts.days a)) cfg it)
      out.
Proof.
  unfold Scripts.main, Scripts.accumulate, bind. intros H.
  destruct (Scripts.init_state fs (Scripts.infile a)) as [st0|] eqn:Hinit; [|done].
  destruct (foldM _ cfg st0) as [st|] eqn:Hf; [|done].
  unfold Scripts.sort_and_cut in H. destruct (forallb _ _); [|done]. injection H as <-.
  exists st0. split; [done|].
  destruct (scripts_loop_from_config _ _ _ _ Hf) as (news & Hm & Hn).
  apply Forall_forall. intros j Hj.
  assert (Hin : j ∈ Scripts.merged st).
  { rewrite <- (sort_desc_perm Scripts.date_of String.ltb).
    eapply elem_of_sublist; [exact Hj | apply prefix_sublist, py_slice_to_prefix]. }
  rewrite Hm in Hin. apply elem_of_app in Hin as [Hin|Hin]; [by left|right].
  apply list_elem_of_fmap in Hin as (it & -> & Hit).
  exists it. split; [done|]. rewrite Forall_forall in Hn. by apply Hn.
Qed.

Lemma workflow_main_from_config (a : Workflow.args) (cfg : list vendor_cfg) (out : list Item) :
  Workflow.main parse html_summary clock a cfg = Ok out ->
  Forall (from_config (workflow_item_of parse html_summary clock (Workflow.days a)) cfg) out.
Proof.
  unfold Workflow.main, bind. intros H.
  destruct (Workflow.collect _ _ _ a cfg) as [l|] eqn:Hl; [|done]. injection H as <-.
  apply workflow_collect_from_config in Hl.
  apply Forall_forall. intros it Hit. rewrite Forall_forall in Hl. apply Hl.
  rewrite <- (sort_desc_perm Workflow.sort_key pair_ltb).
  eapply elem_of_sublist; [exact Hit | apply rank_sublist].
Qed.

End Provenance.

(** X12: every item of an output comes from an entry of a feed of a
    configured vendor (in the scripts variant, unless it is an item of the
    prior snapshot): the entry has a link (and, in the scripts variant, a
    title), its timestamp was inside the window at some reading of the
    clock, its text matches a keyword of the vendor or a global key, and
    the item is the one built from the fields of that entry. *)
Theorem items_come_from_entries
    (parse : string -> option Z) (html_summary : string -> string) (clock : nat -> Z)
    (fs : string -> file) (cfg : list vendor_cfg) :
  (forall a out,
     Scripts.main parse html_summary clock fs a cfg = Ok out ->
     exists st0,
       Scripts.init_state fs (Scripts.infile a) = Ok st0 /\
       Forall (fun j => j ∈ Scripts.merged st0 \/
                        exists it, j = item_json it /\
                          from_config (scripts_item_of parse html_summary clock (Scripts.days a))
                            cfg it)
         out) /\
  (forall a out,
     Workflow.main parse html_summary clock a cfg = Ok out ->
     Forall (from_config (workflow_item_of parse html_summary clock (Workflow.days a)) cfg) out).
Proof.
  split.
  - intros a out. apply scripts_main_from_config.
  - intros a out. apply workflow_main_from_config.
Qed.

Lemma items_come_from_entries_witness :
  (exists out,
     Scripts.main parse_iso_date demo_html demo_clock demo_fs
       (demo_args "data/agent-radar.json") demo_cfg = Ok out /\
     length out = 2%nat /\
     Forall (fun j => j = prior_foo \/
                      exists it, j = item_json it /\
                        from_config (scripts_item_of parse_iso_date demo_html demo_clock 30)
                          demo_cfg it)
       out) /\
  (exists out,
     Workflow.main parse_iso_date demo_html demo_clock demo_wargs demo_cfg = Ok out /\
     length out = 2%nat /\
     Forall (from_config (workflow_item_of parse_iso_date demo_html demo_clock 30) demo_cfg) out).
Proof.
  destruct (items_come_from_entries parse_iso_date demo_html demo_clock demo_fs demo_cfg)
    as [Hs Hw].
  split; eexists; (split; [vm_compute; reflexivity|]); (split; [reflexivity|]).
  - edestruct (Hs (demo_args "data/agent-radar.json")) as (st0 & Hinit & Hall);
      [vm_compute; reflexivity|].
    vm_compute in Hinit. injection Hinit as <-.
    eapply Forall_impl; [exact Hall|].
    intros j [Hj|Hj]; [left | by right].
    by apply list_elem_of_singleton in Hj.
  - apply (Hw demo_wargs). vm_compute; reflexivity.
Defined.

(** ** The fields of an item *)

Lemma scripts_html_summary_length (http_page : string -> option page) (url : string) :
  (String.length (ScriptsIO.html_summary http_page url) <= 240)%nat.
Proof.
  unfold ScriptsIO.html_summary. destruct (http_page url) as [pg|]; [|simpl; lia].
  destruct (meta_description pg) as [m|]; [|apply str_take_length].
  destruct (attr_content m) as [c|]; [|apply str_take_length].
  destruct (negb (String.eqb c "")); apply str_take_length.
Qed.

Lemma workflow_html_summary_length (http_page : string -> option page) (url : string) :
  (String.length (WorkflowIO.html_summary http_page url) <= 240)%nat.
Proof.
  unfold WorkflowIO.html_summary. destruct (http_page url) as [pg|]; [|simpl; lia].
  apply str_take_length.
Qed.

Lemma summary_length (html_summary : string -> string) (text link : string) :
  (forall url, String.length (html_summary url) <= 240)%nat ->
  (String.length (if String.eqb (str_take 220 text) "" then html_summary link
                  else str_take 220 text) <= 240)%nat.
Proof.
  intros Hh. destruct (String.eqb _ _); [apply Hh|].
  pose proof (str_take_length 220 text). lia.
Qed.

Lemma classify_inline_label (text : string) : Workflow.classify_inline text ∈ LABELS.
Proof.
  rewrite classify_inline_last_match. unfold LABELS.
  repeat case_match; set_solver.
Qed.

Lemma scripts_item_fields (parse : string -> option Z) (html_summary : string -> string)
    (clock : nat -> Z) (days : Z) (cfg : list vendor_cfg) (it : Item) :
  (forall url, String.length (html_summary url) <= 240)%nat ->
  from_config (scripts_item_of parse html_summary clock days) cfg it ->
  item_fields_ok cfg 160 it.
Proof.
  intros Hh (v & f & e & Hv & _ & _ & title & link & desc & dt & n & Hit).
  destruct Hit as (_ & _ & _ & Hlne & _ & _ & _ & _ & ->).
  unfold item_fields_ok, Scripts.build_item.
  cbn [name summary type sources tags vendor impact risk audience]. repeat split.
  - apply str_take_length.
  - by apply summary_length.
  - apply classify_label.
  - by exists link.
  - by exists v.
Qed.

Lemma workflow_item_fields (parse : string -> option Z) (html_summary : string -> string)
    (clock : nat -> Z) (days : Z) (cfg : list vendor_cfg) (it : Item) :
  (forall url, String.length (html_summary url) <= 240)%nat ->
  from_config (workflow_item_of parse html_summary clock days) cfg it ->
  item_fields_ok cfg 120 it.
Proof.
  intros Hh (v & f & e & Hv & _ & _ & title & link & desc & summ & dt & n & Hit).
  destruct Hit as (_ & _ & Hlne & _ & _ & _ & _ & _ & ->).
  unfold item_fields_ok, Workflow.build_item.
  cbn [name summary type sources tags vendor impact risk audience]. repeat split.
  - apply str_take_length.
  - by apply summary_length.
  - apply classify_inline_label.
  - by exists link.
  - by exists v.
Qed.

(** X13: with the page summaries of [html_summary], every item that a run
    builds has a name of at most 160 characters (120 in the workflow
    variant), a summary of at most 240 characters, one of the four labels
    as its type, exactly one source with a non-empty url, no tags, and the
    name, impact, risk and audience of a configured vendor. *)
Theorem built_items_fields
    (parse : string -> option Z) (http_page : string -> option page) (clock : nat -> Z)
    (fs : string -> file) (cfg : list vendor_cfg) :
  (forall a out,
     Scripts.main parse (ScriptsIO.html_summary http_page) clock fs a cfg = Ok out ->
     exists st0,
       Scripts.init_state fs (Scripts.infile a) = Ok st0 /\
       Forall (fun j => j ∈ Scripts.merged st0 \/
                        exists it, j = item_json it /\ item_fields_ok cfg 160 it) out) /\
  (forall a out,
     Workflow.main parse (WorkflowIO.html_summary http_page) clock a cfg = Ok out ->
     Forall (item_fields_ok cfg 120) out).
Proof.
  split.
  - intros a out Hmain.
    destruct (scripts_main_from_config _ _ _ _ _ _ _ Hmain) as (st0 & Hinit & Hall).
    exists st0. split; [done|]. eapply Forall_impl; [exact Hall|].
    intros j [Hj|(it & -> & Hit)]; [by left | right].
    exists it. split; [done|].
    eapply scripts_item_fields; [|exact Hit]. apply scripts_html_summary_length.
  - intros a out Hmain.
    eapply Forall_impl; [exact (workflow_main_from_config _ _ _ _ _ _ Hmain)|].
    intros it Hit. eapply workflow_item_fields; [|exact Hit].
    apply workflow_html_summary_length.
Qed.

Lemma built_items_fields_witness :
  (exists out,
     Scripts.main parse_iso_date (ScriptsIO.html_summary demo_page) demo_clock demo_fs
       (demo_args "") demo_cfg = Ok out /\
     length out = 2%nat /\
     Forall (fun j => exists it, j = item_json it /\ item_fields_ok demo_cfg 160 it) out) /\
  (exists out,
     Workflow.main parse_iso_date (WorkflowIO.html_summary demo_page) demo_clock demo_wargs
       demo_cfg = Ok out /\
     length out = 2%nat /\ Forall (item_fields_ok demo_cfg 120) out).
Proof.
  destruct (built_items_fields parse_iso_date demo_page demo_clock demo_fs demo_cfg)
    as [Hs Hw].
  split; eexists; (split; [vm_compute; reflexivity|]); (split; [reflexivity|]).
  - edestruct (Hs (demo_args "")) as (st0 & Hinit & Hall); [vm_compute; reflexivity|].
    vm_compute in Hinit. injection Hinit as <-.
    eapply Forall_impl; [exact Hall|].
    intros j [Hj|Hj]; [by apply elem_of_nil in Hj | done].
  - apply (Hw demo_wargs). vm_compute; reflexivity.
Defined.

(** ** Entries of a JSON document *)

Lemma dict_entries_objs (os : list jdict) :
  dict_entries (map JObj os) = Entries (map entry_of_json os).
Proof. induction os as [|o os IH]; simpl; [done|]. by rewrite IH. Qed.

Lemma dict_entries_raises (l : list json) (x : json) :
  x ∈ l -> as_dict x = None -> dict_entries l = LoopRaises AttributeError.
Proof.
  intros Hx Hnd. induction l as [|y l IH]; [by apply elem_of_nil in Hx|].
  apply elem_of_cons in Hx as [<-|Hx].
  - destruct x; simpl in *; done.
  - destruct y; simpl; try done. by rewrite (IH Hx).
Qed.

Lemma iter_jor_arr (l : list json) :
  iter_entries (jor (JArr l) (JArr [])) = iter_entries (JArr l).
Proof. by destruct l. Qed.

Lemma entry_of_json_get (o : jdict) (k : string) :
  get (entry_of_json o) k = value_of_json (jget o k).
Proof.
  unfold get, jget, entry_of_json. induction o as [|[k' v] o IH]; simpl; [done|].
  destruct (String.eqb_spec k k') as [->|Hne].
  - by rewrite lookup_insert_eq.
  - by rewrite lookup_insert_ne.
Qed.

(** X14: the two variants read the same entries from whatever was
    fetched, except when the document holds [null], [false] or [0] where
    the items are looked up: the scripts variant then reads no entries and
    the workflow variant raises on the loop. *)
Theorem feed_entries_variants (data : feed_data) :
  WorkflowIO.feed_entries data = ScriptsIO.feed_entries data \/
  (exists j x,
     data = JsonData j /\ json_items j = Some x /\
     x ∈ [JNull; JBool false; JNum 0] /\
     ScriptsIO.feed_entries data = Entries [] /\
     WorkflowIO.feed_entries data = LoopRaises NotIterable).
Proof.
  destruct data as [|es|j]; [by left | by left|].
  unfold WorkflowIO.feed_entries, ScriptsIO.feed_entries.
  destruct (json_items j) as [x|] eqn:Hx; [|by left].
  unfold jor. destruct x as [|b|n|s|l|o]; simpl.
  - right. exists j, JNull. repeat split; [done | set_solver].
  - destruct b; [by left|]. right. exists j, (JBool false). repeat split; [done | set_solver].
  - destruct (Z.eqb_spec n 0) as [->|]; simpl; [|by left].
    right. exists j, (JNum 0). repeat split; [done | set_solver].
  - destruct (String.eqb s "") eqn:Hs; simpl; rewrite ?Hs; by left.
  - destruct l; by left.
  - destruct o; by left.
Qed.

(** X15: how a JSON document becomes entries, in both variants.  A list
    of objects under [items] gives one entry for each object, in order,
    whose [get] sees the fields of the object, provided that [value] is
    absent or an object; [value.items] is used when the document has no
    [items].  The loop raises when the document is no object, when [value]
    holds anything but an object (even next to a good [items]), and when
    an element of the list is no object. *)
Theorem json_document_entries (o : jdict) (os : list jdict) (l : list json) :
  (dict_get "items" o = Some (JArr (map JObj os)) ->
   dict_get "value" o = None \/ (exists vo, dict_get "value" o = Some (JObj vo)) ->
   ScriptsIO.feed_entries (JsonData (JObj o)) = Entries (map entry_of_json os) /\
   WorkflowIO.feed_entries (JsonData (JObj o)) = Entries (map entry_of_json os)) /\
  (forall vo,
     dict_get "items" o = None -> dict_get "value" o = Some (JObj vo) ->
     dict_get "items" vo = Some (JArr (map JObj os)) ->
     ScriptsIO.feed_entries (JsonData (JObj o)) = Entries (map entry_of_json os) /\
     WorkflowIO.feed_entries (JsonData (JObj o)) = Entries (map entry_of_json os)) /\
  (forall j k, get (entry_of_json j) k = value_of_json (jget j k)) /\
  (forall j, as_dict j = None ->
     ScriptsIO.feed_entries (JsonData j) = LoopRaises AttributeError /\
     WorkflowIO.feed_entries (JsonData j) = LoopRaises AttributeError) /\
  (forall v, dict_get "value" o = Some v -> as_dict v = None ->
     ScriptsIO.feed_entries (JsonData (JObj o)) = LoopRaises AttributeError /\
     WorkflowIO.feed_entries (JsonData (JObj o)) = LoopRaises AttributeError) /\
  (forall x,
     dict_get "items" o = Some (JArr l) -> dict_get "value" o = None ->
     x ∈ l -> as_dict x = None ->
     ScriptsIO.feed_entries (JsonData (JObj o)) = LoopRaises AttributeError /\
     WorkflowIO.feed_entries (JsonData (JObj o)) = LoopRaises AttributeError).
Proof.
  unfold ScriptsIO.feed_entries, WorkflowIO.feed_entries, json_items.
  split; [|split; [|split; [|split; [|split]]]].
  - intros Hitems Hvalue.
    assert (Hsel : match default (JObj []) (dict_get "value" o) with
                   | JObj vo => Some (default (default (JArr []) (dict_get "items" vo))
                                        (dict_get "items" o))
                   | _ => None
                   end = Some (JArr (map JObj os))).
    { destruct Hvalue as [->|[vo ->]]; simpl; by rewrite Hitems. }
    rewrite Hsel, iter_jor_arr. cbn [iter_entries]. by rewrite dict_entries_objs.
  - intros vo Hitems Hvalue Hvitems.
    assert (Hsel : match default (JObj []) (dict_get "value" o) with
                   | JObj vo => Some (default (default (JArr []) (dict_get "items" vo))
                                        (dict_get "items" o))
                   | _ => None
                   end = Some (JArr (map JObj os))).
    { rewrite Hvalue, Hitems. simpl. by rewrite Hvitems. }
    rewrite Hsel, iter_jor_arr. cbn [iter_entries]. by rewrite dict_entries_objs.
  - apply entry_of_json_get.
  - intros j Hj. destruct j; simpl in Hj; done.
  - intros v Hv Hnd. rewrite Hv. destruct v; simpl in *; done.
  - intros x Hitems Hvalue Hx Hnd. rewrite Hvalue, Hitems. simpl.
    assert (Hl : jtruthy (JArr l) = true) by (destruct l; [by apply elem_of_nil in Hx | done]).
    unfold jor. rewrite Hl. simpl. by rewrite (dict_entries_raises l x).
Qed.

Lemma json_document_entries_witness :
  ScriptsIO.feed_entries (JsonData demo_json_feed)
    = Entries [entry_of_json demo_json_item] /\
  entry_link (entry_of_json demo_json_item) = VStr "https://acme.example/j" /\
  WorkflowIO.feed_entries
    (JsonData (JObj [("items", JArr [JObj demo_json_item]); ("value", JNum 5)]))
    = LoopRaises AttributeError.
Proof.
  split; [|split].
  - apply (proj1 (json_document_entries
                    [("version", JStr "1.1"); ("items", JArr [JObj demo_json_item])]
                    [demo_json_item] []));
      [reflexivity | left; reflexivity].
  - unfold entry_link, py_or at 2.
    rewrite !(proj1 (proj2 (proj2 (json_document_entries [] [] []))) demo_json_item).
    vm_compute. reflexivity.
  - apply (proj1 (proj2 (proj2 (proj2 (proj2
             (json_document_entries
                [("items", JArr [JObj demo_json_item]); ("value", JNum 5)] [] []))))) (JNum 5));
      reflexivity.
Defined.

(** ** A failed fetch *)

(** X16: a fetch that fails is not an error of the run: when the request
    for a [.json] URL raises, or the feed parser raises for any other URL,
    [fetch_feed] gives the empty dict in both variants, the loop has no
    entries, and the state of the run stays as it is. *)
Theorem failed_fetch_changes_nothing
    (http_json : string -> option json) (feedparser_parse : string -> option (list entry))
    (parse : string -> option Z) (html_summary : string -> string) (clock : nat -> Z)
    (days : Z) (v : vendor_cfg) (url : string) :
  (if str_ends_with ".json" url then http_json url = None else feedparser_parse url = None) ->
  ScriptsIO.fetch_feed http_json feedparser_parse url = NoData /\
  WorkflowIO.fetch_feed http_json feedparser_parse url = NoData /\
  (forall st es,
     ScriptsIO.feed_entries (ScriptsIO.fetch_feed http_json feedparser_parse url) = Entries es ->
     Scripts.process_feed parse html_summary clock days v st es = Ok st) /\
  (forall st es,
     WorkflowIO.feed_entries (WorkflowIO.fetch_feed http_json feedparser_parse url) = Entries es ->
     Workflow.process_feed parse html_summary clock days v st es = Ok st).
Proof.
  intros Hfail.
  assert (Hs : ScriptsIO.fetch_feed http_json feedparser_parse url = NoData).
  { unfold ScriptsIO.fetch_feed. destruct (str_ends_with ".json" url); by rewrite Hfail. }
  assert (Hw : WorkflowIO.fetch_feed http_json feedparser_parse url = NoData).
  { unfold WorkflowIO.fetch_feed. destruct (str_ends_with ".json" url); by rewrite Hfail. }
  rewrite Hs, Hw. repeat split; intros st es [= <-]; reflexivity.
Qed.

Lemma failed_fetch_changes_nothing_witness :
  ScriptsIO.fetch_feed (fun _ => None) (fun _ => Some [entry_ga])
    "https://acme.example/feed.json" = NoData /\
  ScriptsIO.fetch_feed (fun _ => None) (fun _ => Some [entry_ga])
    "https://acme.example/feed.xml" = FeedData [entry_ga].
Proof.
  split; [|reflexivity].
  apply (failed_fetch_changes_nothing (fun _ => None) (fun _ => Some [entry_ga])
           parse_iso_date demo_html demo_clock 30 (acme []) "https://acme.example/feed.json").
  reflexivity.
Defined.

(** ** Page summaries *)

(** X17: the summary of a page has at most 240 characters and is empty
    when the page cannot be fetched or parsed.  A description with a
    non-empty content gives the start of that content (stripped of outer
    white space in the workflow variant).  When the description has no
    content, the scripts variant takes the first paragraph and the
    workflow variant takes the text of the description tag. *)
Theorem html_summary_cases (http_page : string -> option page) (url : string) :
  (String.length (ScriptsIO.html_summary http_page url) <= 240)%nat /\
  (String.length (WorkflowIO.html_summary http_page url) <= 240)%nat /\
  (http_page url = None ->
   ScriptsIO.html_summary http_page url = "" /\ WorkflowIO.html_summary http_page url = "") /\
  (forall pg m c,
     http_page url = Some pg -> meta_description pg = Some m ->
     attr_content m = Some c -> c <> "" ->
     ScriptsIO.html_summary http_page url = str_take 240 c /\
     WorkflowIO.html_summary http_page url = str_take 240 (strip_ws c)) /\
  (forall pg m,
     http_page url = Some pg -> meta_description pg = Some m -> attr_content m = None ->
     ScriptsIO.html_summary http_page url
       = str_take 240 (match first_p pg with Some p => tag_text p | None => "" end) /\
     WorkflowIO.html_summary http_page url = str_take 240 (strip_ws (tag_text m))).
Proof.
  split; [apply scripts_html_summary_length|].
  split; [apply workflow_html_summary_length|].
  unfold ScriptsIO.html_summary, WorkflowIO.html_summary.
  split; [|split].
  - by intros ->.
  - intros pg m c -> -> -> Hc. apply String.eqb_neq in Hc. by rewrite Hc.
  - by intros pg m -> -> ->.
Qed.

Lemma html_summary_cases_witness :
  ScriptsIO.html_summary demo_page "https://acme.example/a" = "Acme ships agents." /\
  WorkflowIO.html_summary demo_page "https://acme.example/a" = "".
Proof.
  destruct (html_summary_cases demo_page "https://acme.example/a") as (_ & _ & _ & _ & H).
  edestruct H as [Hs Hw]; [reflexivity | reflexivity | reflexivity|].
  split; [exact Hs | exact Hw].
Defined.

(** ** The same entry met again *)

Section SameEntry.
Variable parse : string -> option Z.
Variable html_summary : string -> string.
Variable clock : nat -> Z.

Lemma process_entry_added (days : Z) (v : vendor_cfg) (st st' : Scripts.state) (e : entry) :
  Scripts.process_entry parse html_summary clock days v st e = Ok st' ->
  (Scripts.merged st' = Scripts.merged st /\ Scripts.seen st' = Scripts.seen st) \/
  (exists title dt it,
     entry_title e = VStr title /\ Scripts.pick_date parse e = Some dt /\
     id it = Scripts.safe_id (strftime_ymd dt) (v_name v) title /\
     Scripts.merged st' = Scripts.merged st ++ [item_json it] /\
     Scripts.seen st' = {[id it]} ∪ Scripts.seen st /\
     (id it ∉ Scripts.seen st)).
Proof.
  unfold Scripts.process_entry. cbv zeta. intros H.
  destruct (negb (truthy (entry_link e)) || negb (truthy (entry_title e))) eqn:Hguard;
    [injection H as <-; by left|].
  apply orb_false_iff in Hguard as [Hl Ht]. apply negb_false_iff in Ht.
  destruct (Scripts.pick_date parse e) as [dt|] eqn:Hdt; [|injection H as <-; by left].
  destruct (negb (in_window (clock (Scripts.ticks st)) (Some dt) days));
    [injection H as <-; by left|].
  destruct (format_value (entry_title e)) as [title|] eqn:Hft; cbn [bind] in H; [|done].
  destruct (format_value (py_or (py_or (get e "summary") (get e "content_text")) (VStr "")))
    as [desc|]; cbn [bind] in H; [|done].
  destruct (format_value (entry_link e)) as [link|]; cbn [bind] in H; [|done].
  destruct (negb (match_kw _ _)); [injection H as <-; by left|].
  destruct (bool_decide _) eqn:Hseen; [injection H as <-; by left|].
  injection H as <-. apply bool_decide_eq_false in Hseen.
  destruct (format_value_truthy _ _ Ht Hft) as [Htitle _].
  right. exists title, dt. eexists. repeat split; [done | reflexivity | done].
Qed.

End SameEntry.

(** X18: within a run of the scripts variant, an entry that has given an
    item gives no second one: when the same entry is met again, for the
    same vendor and in any later state of the run, the merged list stays
    as it is. *)
Theorem same_entry_adds_once
    (parse : string -> option Z) (html_summary : string -> string) (clock : nat -> Z)
    (days : Z) (v : vendor_cfg) (e : entry) (st st1 st2 st3 : Scripts.state) :
  Scripts.process_entry parse html_summary clock days v st e = Ok st1 ->
  Scripts.merged st1 <> Scripts.merged st ->
  Scripts.seen st1 ⊆ Scripts.seen st2 ->
  Scripts.process_entry parse html_summary clock days v st2 e = Ok st3 ->
  Scripts.merged st3 = Scripts.merged st2 /\ Scripts.seen st3 = Scripts.seen st2.
Proof.
  intros H1 Hadded Hsub H2.
  apply process_entry_added in H1 as [[Hm _]|(t1 & d1 & it1 & Ht1 & Hd1 & Hid1 & _ & Hs1 & _)];
    [done|].
  apply process_entry_added in H2 as [H2|(t2 & d2 & it2 & Ht2 & Hd2 & Hid2 & _ & _ & Hfresh)];
    [done|].
  exfalso. apply Hfresh. apply Hsub. rewrite Hs1.
  assert (id it2 = id it1) as -> by congruence. set_solver.
Qed.

Lemma same_entry_adds_once_witness :
  exists st1 st3,
    Scripts.process_entry parse_iso_date demo_html demo_clock 30 (acme [])
      {| Scripts.merged := []; Scripts.seen := ∅; Scripts.ticks := 0 |} entry_ga = Ok st1 /\
    length (Scripts.merged st1) = 1%nat /\
    Scripts.process_entry parse_iso_date demo_html demo_clock 30 (acme []) st1 entry_ga = Ok st3 /\
    Scripts.merged st3 = Scripts.merged st1.
Proof.
  do 2 eexists. split; [vm_compute; reflexivity|]. split; [reflexivity|].
  split; [vm_compute; reflexivity|].
  eapply (same_entry_adds_once parse_iso_date demo_html demo_clock 30 (acme []) entry_ga
            {| Scripts.merged := []; Scripts.seen := ∅; Scripts.ticks := 0 |}).
  - vm_compute; reflexivity.
  - discriminate.
  - reflexivity.
  - vm_compute; reflexivity.
Defined.

(** * Prior items and colliding entries *)



Section CollisionFacts.
Variable parse : string -> option Z.
Variable html_summary : string -> string.
Variable clock : nat -> Z.





End CollisionFacts.





